(** * gemini-stream: the generation endpoint and the form that calls it

    A shallow embedding of

    - [src/app/api/generate/route.ts]: the [POST] handler of [/api/generate];
    - the page component [Home]: its state, [isFormValid], [handleSubmit],
      [handlePromptChange] and [handleTypeChange].

    Both are written over a small model of the JavaScript values they touch
    (module [Js]): values parsed from JSON, property reads, [ToBoolean],
    [ToString], thrown values, and computations that either complete
    normally or abruptly while leaving a log of their outside calls. *)

From Stdlib Require Import String Ascii List Bool Arith NArith DecimalString Lia.
Import ListNotations.
Open Scope string_scope.
Set Warnings "-register-all".

(* ================================================================= *)
(** ** JavaScript values and computations *)

Module Js.

(** What [JSON.parse] (hence [req.json()] and [response.json()]) produces.
    A Number is kept as its [Number::toString] text, which determines it up
    to the sign of zero; the code observes numbers only through [ToBoolean]
    and [ToString].  An object is the list of its own properties. *)
Inductive json : Type :=
| JNull
| JBool (b : bool)
| JNum (text : string)
| JStr (s : string)
| JArr (items : list json)
| JObj (props : list (string * json)).

(** A JavaScript value here is [undefined] ([None]) or a parsed value. *)
Definition value : Type := option json.

Fixpoint lookup (k : string) (props : list (string * json)) : value :=
  match props with
  | [] => None
  | (k', v) :: rest => if String.eqb k k' then Some v else lookup k rest
  end.

(** [v.k] for a [v] that is neither [null] nor [undefined].  The code reads
    only [prompt], [type], [content] and [error]; none of them is a property
    of a string, a number, a boolean or an array, nor of [Object.prototype]. *)
Definition get (v : json) (k : string) : value :=
  match v with
  | JObj props => lookup k props
  | _ => None
  end.

(** [ToBoolean]: [!x] is [negb (ToBoolean x)]. *)
Definition ToBoolean (x : value) : bool :=
  match x with
  | None => false
  | Some JNull => false
  | Some (JBool b) => b
  | Some (JNum text) => negb (String.eqb text "0" || String.eqb text "NaN")
  | Some (JStr s) => negb (String.eqb s "")
  | Some (JArr _) => true
  | Some (JObj _) => true
  end.

(** [ToString], as applied by a template literal and by [new Error(x)];
    [None] when it throws a TypeError.  An object of [JSON.parse] with an
    own property [toString] cannot be converted: that property is not
    callable, and [Object.prototype.valueOf] gives back the object.  Any
    other object is "[object Object]".  An array joins its elements with
    commas, [null] elements being empty, and throws when an element does. *)
Fixpoint ToString (v : json) : option string :=
  match v with
  | JNull => Some "null"
  | JBool true => Some "true"
  | JBool false => Some "false"
  | JNum text => Some text
  | JStr s => Some s
  | JArr items =>
      let element x := match x with JNull => Some "" | _ => ToString x end in
      (fix join (l : list json) : option string :=
         match l with
         | [] => Some ""
         | [x] => element x
         | x :: rest =>
             match element x, join rest with
             | Some first, Some others => Some (first ++ "," ++ others)
             | _, _ => None
             end
         end) items
  | JObj props =>
      match lookup "toString" props with
      | Some _ => None
      | None => Some "[object Object]"
      end
  end.

(** [${x}] in a template literal, and the message of [new Error(x)] for
    an [x] other than [undefined]; [None] when the conversion throws. *)
Definition interpolate (x : value) : option string :=
  match x with
  | Some v => ToString v
  | None => Some "undefined"
  end.

(** [x === s] for a string literal [s]. *)
Definition strict_eq_string (x : value) (s : string) : bool :=
  match x with
  | Some (JStr s') => String.eqb s' s
  | _ => false
  end.

(** [xs.includes(x)] for an array [xs] of string literals. *)
Definition includes (xs : list string) (x : value) : bool :=
  existsb (strict_eq_string x) xs.

(** White space and line terminators that [String.prototype.trim] strips.
    A character of [string] stands for one code unit below 256; the further
    white space of ECMAScript (U+1680, U+2000 to U+200A, U+2028, U+2029,
    U+202F, U+205F, U+3000, U+FEFF) lies outside this alphabet; the test
    over every code unit is in [Units] below. *)
Definition isWhiteSpace (c : ascii) : bool :=
  existsb (N.eqb (N_of_ascii c)) [9; 10; 11; 12; 13; 32; 160]%N.

Fixpoint trimStart (s : string) : string :=
  match s with
  | String c rest => if isWhiteSpace c then trimStart rest else s
  | EmptyString => EmptyString
  end.

Fixpoint trimEnd (s : string) : string :=
  match s with
  | String c rest =>
      match trimEnd rest with
      | EmptyString => if isWhiteSpace c then EmptyString else String c EmptyString
      | kept => String c kept
      end
  | EmptyString => EmptyString
  end.

Definition trim (s : string) : string := trimEnd (trimStart s).

(** What a [catch] clause receives: an instance of [Error] with its
    [message], or any other thrown value. *)
Inductive thrown : Type :=
| ErrorInstance (message : string)
| NotAnError.

(** [error instanceof Error ? error.message : fallback]. *)
Definition message_or (fallback : string) (e : thrown) : string :=
  match e with
  | ErrorInstance message => message
  | NotAnError => fallback
  end.

(** How an evaluation (or an awaited promise) ends. *)
Inductive completion (A : Type) : Type :=
| Normal (a : A)
| Abrupt (e : thrown).
Arguments Normal {A} a.
Arguments Abrupt {A} e.

(** A computation: its completion and the outside calls it made, in order. *)
Definition Eff (E A : Type) : Type := (completion A * list E)%type.

Definition ret {E A} (a : A) : Eff E A := (Normal a, []).

Definition throw {E A} (e : thrown) : Eff E A := (Abrupt e, []).

Definition emit {E} (ev : E) : Eff E unit := (Normal tt, [ev]).

(** An outside call: logged, then completing as the outside world decides. *)
Definition call {E A} (ev : E) (outcome : completion A) : Eff E A :=
  (outcome, [ev]).

Definition bind {E A B} (m : Eff E A) (k : A -> Eff E B) : Eff E B :=
  match m with
  | (Normal a, log) => let (r, log') := k a in (r, (log ++ log')%list)
  | (Abrupt e, log) => (Abrupt e, log)
  end.

(** [try { m } catch (e) { handler e }]. *)
Definition try_catch {E A} (m : Eff E A) (handler : thrown -> Eff E A) : Eff E A :=
  match m with
  | (Normal a, log) => (Normal a, log)
  | (Abrupt e, log) => let (r, log') := handler e in (r, (log ++ log')%list)
  end.

End Js.

Import Js.

Declare Scope eff_scope.
Delimit Scope eff_scope with eff.
Notation "x <- m ;; k" := (bind m (fun x => k))
  (at level 61, m at next level, right associativity) : eff_scope.
Notation "' pat <- m ;; k" := (bind m (fun x => match x with pat => k end))
  (at level 61, pat pattern, m at next level, right associativity) : eff_scope.
Notation "m ;;; k" := (bind m (fun _ => k))
  (at level 61, right associativity) : eff_scope.

(* ================================================================= *)
(** ** The endpoint: [src/app/api/generate/route.ts] *)

Module Route.

(** [process.env], as far as the handler reads it. *)
Record Env : Type := { GEMINI_API_KEY : option string }.

(** The request, as far as the handler reads it: how [req.json()] ends. *)
Record Request : Type := { req_json : completion json }.

(** [NextResponse.json(body, { status })]. *)
Record Response : Type := { status : N; body : json }.

Definition NextResponse_json (body : json) (status : option N) : Response :=
  {| status := match status with Some s => s | None => 200%N end;
     body := body |}.

(** The calls that leave the handler. *)
Inductive event : Type :=
| GenerateContent (apiKey model : string) (prompt : json)
| ConsoleError (label : string) (error : thrown).

Definition is_GenerateContent (ev : event) : bool :=
  match ev with
  | GenerateContent _ _ _ => true
  | ConsoleError _ _ => false
  end.

(** The provider's calls among the calls a run of the handler made. *)
Definition provider_calls {A} (run : Eff event A) : list event :=
  filter is_GenerateContent (snd run).

(** [!process.env.GEMINI_API_KEY] is false: the variable is set and not
    the empty string. *)
Definition configured (env : Env) : bool :=
  match GEMINI_API_KEY env with
  | Some key => negb (String.eqb key "")
  | None => false
  end.

Section Handler.

(** The message of the TypeError the engine raises when [null] is
    destructured; its wording is the engine's. *)
Variable TypeError_destructure_null : string.

(** The provider, an outside collaborator:
    [new GoogleGenerativeAI(apiKey).getGenerativeModel({ model })
       .generateContent(prompt)] followed by [result.response.text()]. *)
Variable provider : string -> string -> json -> completion string.

(** [const { prompt, type } = body]. *)
Definition destructure (body : json) : Eff event (value * value) :=
  match body with
  | JNull => throw (ErrorInstance TypeError_destructure_null)
  | _ => ret (get body "prompt", get body "type")
  end.

(** The body of the [try] block. *)
Definition try_block (env : Env) (req : Request) : Eff event Response :=
  (if negb (configured env) then
     ret (NextResponse_json
            (JObj [("error", JStr "Server configuration error: Missing API key")])
            (Some 500%N))
   else
     parsed <- (req_json req, []) ;;
     '(prompt, type) <- destructure parsed ;;
     if negb (ToBoolean prompt) || negb (ToBoolean type)
        || negb (includes ["text"; "image"] type) then
       ret (NextResponse_json
              (JObj [("error", JStr "Prompt and valid type (text or image) are required")])
              (Some 400%N))
     else
       let apiKey := match GEMINI_API_KEY env with Some key => key | None => "" end in
       if strict_eq_string type "text" then
         let model := "gemini-1.5-flash" in
         let prompt' := match prompt with Some p => p | None => JNull end in
         text <- call (GenerateContent apiKey model prompt')
                      (provider apiKey model prompt') ;;
         ret (NextResponse_json
                (JObj [("type", JStr "text"); ("content", JStr text)]) None)
       else
         ret (NextResponse_json
                (JObj [("error", JStr "Image generation not supported in this version")])
                (Some 501%N)))%eff.

(** [export async function POST(req)]. *)
Definition POST (env : Env) (req : Request) : Eff event Response :=
  try_catch (try_block env req)
    (fun error =>
       (emit (ConsoleError "API Error:" error) ;;;
        let errorMessage := message_or "Internal server error" error in
        ret (NextResponse_json (JObj [("error", JStr errorMessage)]) (Some 500%N)))%eff).

End Handler.

End Route.

(* ================================================================= *)
(** ** The form: the page component [Home] *)

Module Page.

Inductive GenerationType : Type := text | image.

Definition GENERATION_TYPES : list GenerationType := [text; image].

(** The string a [GenerationType] is at run time. *)
Definition type_string (t : GenerationType) : string :=
  match t with
  | text => "text"
  | image => "image"
  end.

Definition GenerationType_eqb (a b : GenerationType) : bool :=
  match a, b with
  | text, text | image, image => true
  | _, _ => false
  end.

Record FormError : Type := { message : string }.

(** The five [useState] cells.  [result] holds whatever [response.json()]
    gave ([GenerateResponse] is only its static type). *)
Record State : Type := {
  prompt : string;
  type : GenerationType;
  result : option json;
  loading : bool;
  error : option FormError
}.

Definition initial : State :=
  {| prompt := ""; type := text; result := None; loading := false; error := None |}.

Definition setPrompt (v : string) (st : State) : State :=
  {| prompt := v; type := type st; result := result st;
     loading := loading st; error := error st |}.

Definition setType (v : GenerationType) (st : State) : State :=
  {| prompt := prompt st; type := v; result := result st;
     loading := loading st; error := error st |}.

Definition setResult (v : option json) (st : State) : State :=
  {| prompt := prompt st; type := type st; result := v;
     loading := loading st; error := error st |}.

Definition setLoading (v : bool) (st : State) : State :=
  {| prompt := prompt st; type := type st; result := result st;
     loading := v; error := error st |}.

Definition setError (v : option FormError) (st : State) : State :=
  {| prompt := prompt st; type := type st; result := result st;
     loading := loading st; error := v |}.

(** [prompt.trim().length > 0 && GENERATION_TYPES.includes(type)]. *)
Definition isFormValid (st : State) : bool :=
  Nat.ltb 0 (String.length (trim (prompt st)))
  && existsb (GenerationType_eqb (type st)) GENERATION_TYPES.

(** The second argument of [fetch]; [timeout] is the delay, in
    milliseconds, of [AbortSignal.timeout]. *)
Record RequestInit : Type := {
  method : string;
  headers : list (string * string);
  body : json;
  timeout : N
}.

(** The response of [fetch], as far as the handler reads it. *)
Record HttpResponse : Type := {
  status : N;
  response_json : completion json
}.

(** [response.ok]. *)
Definition ok (response : HttpResponse) : bool :=
  (200 <=? status response)%N && (status response <=? 299)%N.

Definition decimal (n : N) : string := NilZero.string_of_uint (N.to_uint n).

(** The calls that leave the component. *)
Inductive event : Type :=
| Fetch (url : string) (init : RequestInit)
| ToastError (title description : string)
| ToastSuccess (title description : string).

Definition is_Fetch (ev : event) : bool :=
  match ev with
  | Fetch _ _ => true
  | _ => false
  end.

(** The second argument of the call of [fetch] in [handleSubmit]. *)
Definition request_init (prompt : string) (type : GenerationType) : RequestInit :=
  {| method := "POST";
     headers := [("Content-Type", "application/json")];
     body := JObj [("prompt", JStr prompt); ("type", JStr (type_string type))];
     timeout := 30000 |}.

Section Handlers.

(** The message of the TypeError the engine raises when a property of
    [null] is read, given the property's name. *)
Variable TypeError_read_null : string -> string.

(** The message of the TypeError the engine raises when a value cannot be
    converted to a string. *)
Variable TypeError_to_primitive : string.

(** The network: how [fetch(url, init)] ends. *)
Variable network : string -> RequestInit -> completion HttpResponse.

(** [v.k], throwing on [null]. *)
Definition read (v : json) (k : string) : Eff event value :=
  match v with
  | JNull => throw (ErrorInstance (TypeError_read_null k))
  | _ => ret (get v k)
  end.

(** A conversion that may throw, as a step of the handler. *)
Definition converted (conversion : option string) : Eff event string :=
  match conversion with
  | Some s => ret s
  | None => throw (ErrorInstance TypeError_to_primitive)
  end.

(** The [try] block of [handleSubmit], up to the checked [data]. *)
Definition request (prompt : string) (type : GenerationType) : Eff event json :=
  (let init := request_init prompt type in
   response <- call (Fetch "/api/generate" init) (network "/api/generate" init) ;;
   if negb (ok response) then
     errorData <- try_catch (response_json response, [])
                            (fun _ => ret (JObj [])) ;;
     error <- read errorData "error" ;;
     message <- (if ToBoolean error then converted (interpolate error)
                 else ret ("HTTP error! Status: " ++ decimal (status response))) ;;
     throw (ErrorInstance message)
   else
     data <- (response_json response, []) ;;
     type' <- read data "type" ;;
     invalid <- (if negb (ToBoolean type') then ret true
                 else content <- read data "content" ;;
                      ret (negb (ToBoolean content))) ;;
     if (invalid : bool) then throw (ErrorInstance "Invalid response from the abyss")
     else ret data)%eff.

(** The [catch] clause of [handleSubmit], on the state of that moment. *)
Definition catch_clause (err : thrown) (st : State) : State * list event :=
  let errorMessage := message_or "The abyss rejected your request." err in
  (setError (Some {| message := errorMessage |}) st,
   [ToastError "Ritual Failed" errorMessage]).

(** The end of the [try] block, once [data] is checked: [setResult(data)],
    then the success toast, whose description converts [data.type] to a
    string; if that throws, the [catch] clause runs with the result
    already stored. *)
Definition announce (data : json) (st : State) : State * list event :=
  let st' := setResult (Some data) st in
  match interpolate (get data "type") with
  | Some name =>
      (st', [ToastSuccess "Creation Summoned"
               ("Your " ++ name ++ " has emerged from the shadows.")])
  | None => catch_clause (ErrorInstance TypeError_to_primitive) st'
  end.

(** [handleSubmit]: the state after it and the calls it made. *)
Definition handleSubmit (st : State) : State * list event :=
  if negb (isFormValid st) then
    (setError (Some {| message := "A valid incantation and type are required." |}) st,
     [ToastError "Forbidden Incantation"
                 "Provide a proper prompt and select a creation type."])
  else
    let st1 := setResult None (setError None (setLoading true st)) in
    let (outcome, calls) := request (prompt st) (type st) in
    let (st2, toasts) :=
      match outcome with
      | Normal data => announce data st1
      | Abrupt err => catch_clause err st1
      end in
    (setLoading false st2, (calls ++ toasts)%list).

End Handlers.

Definition handlePromptChange (v : string) (st : State) : State :=
  let st' := setPrompt v st in
  match error st with
  | Some _ => setError None st'
  | None => st'
  end.

Definition handleTypeChange (v : GenerationType) (st : State) : State :=
  let st' := setType v st in
  match error st with
  | Some _ => setError None st'
  | None => st'
  end.


End Page.

(* ================================================================= *)
(** ** Concrete surroundings, for running the handlers on inputs *)

Module Sample.

(** V8's wording of the TypeErrors. *)
Definition destructure_null : string :=
  "Cannot destructure property 'prompt' of '(intermediate value)' as it is null.".

Definition read_null (k : string) : string :=
  "Cannot read properties of null (reading '" ++ k ++ "')".

Definition to_primitive : string := "Cannot convert object to primitive value".

(** A provider that answers every prompt with [text]. *)
Definition answering (text : string) : string -> string -> json -> completion string :=
  fun _ _ _ => Normal text.

(** A provider whose every call throws [e]. *)
Definition failing (e : thrown) : string -> string -> json -> completion string :=
  fun _ _ _ => Abrupt e.

(** An environment with the credential set. *)
Definition env : Route.Env := {| Route.GEMINI_API_KEY := Some "secret" |}.

(** A request whose body is [{ "prompt": prompt, "type": type }]. *)
Definition posting (prompt type : json) : Route.Request :=
  {| Route.req_json := Normal (JObj [("prompt", prompt); ("type", type)]) |}.

(** A network on which every [fetch] resolves with [response]. *)
Definition responding (response : Page.HttpResponse)
  : string -> Page.RequestInit -> completion Page.HttpResponse :=
  fun _ _ => Normal response.

(** A response with [status] whose body parses to [data]. *)
Definition carrying (status : N) (data : json) : Page.HttpResponse :=
  {| Page.status := status; Page.response_json := Normal data |}.

(** The state once "hi" has been typed into the prompt. *)
Definition typed : Page.State := Page.handlePromptChange "hi" Page.initial.

(** The successful answer of the specification's example. *)
Definition hello : json := JObj [("type", JStr "text"); ("content", JStr "Hello")].

(** An answer whose content is the empty string. *)
Definition empty_content : json := JObj [("type", JStr "text"); ("content", JStr "")].

(** The state after "hi" was submitted and answered with [hello]. *)
Definition summoned : Page.State :=
  fst (Page.handleSubmit read_null to_primitive (responding (carrying 200 hello)) typed).

(** The same, once the prompt has been emptied again. *)
Definition blanked : Page.State := Page.handlePromptChange "" summoned.


End Sample.

(* ================================================================= *)
(** ** What [Home] renders *)

Module View.

Import Page.

(** The double quote character of the echo line. *)
Definition quote : string := String (ascii_of_nat 34) EmptyString.

(** The two ways a result is shown: [<p>{result.content}</p>], the content
    being handed to React as it is, or an [<img>] with the given [src].
    The [src] is a template literal over the content: [None] when its
    conversion throws, and the render with it. *)
Inductive Creation : Type :=
| Prose (children : value)
| Vision (src : option string).

(** The parts of the returned tree that depend on the state.  An element
    is present here when [Home] returns it; how long the animation library
    keeps a removed element on the page is not part of it. *)
Record Rendered : Type := {
  input_value : string;
  input_disabled : bool;
  input_aria_invalid : bool;
  input_aria_describedby : option string;
  echo : option string;
  select_value : GenerationType;
  select_disabled : bool;
  button_disabled : bool;
  button_label : string;
  alert_region : option string;
  creation : option Creation
}.

(** The [return (...)] of [Home]. *)
Definition Home (st : State) : Rendered :=
  {| input_value := prompt st;
     input_disabled := loading st;
     input_aria_invalid := match error st with Some _ => true | None => false end;
     input_aria_describedby :=
       match error st with Some _ => Some "prompt-error" | None => None end;
     echo :=
       if negb (String.eqb (prompt st) "") then
         Some ("Echo: " ++ quote ++ substring 0 50 (prompt st)
               ++ (if Nat.ltb 50 (String.length (prompt st)) then "..." else "")
               ++ quote)
       else None;
     select_value := type st;
     select_disabled := loading st;
     button_disabled := loading st || negb (isFormValid st);
     button_label := if loading st then "Summoning..." else "Conjure";
     alert_region := match error st with Some e => Some (message e) | None => None end;
     creation :=
       match result st with
       | Some r =>
           Some (if strict_eq_string (get r "type") "text"
                 then Prose (get r "content")
                 else Vision
                        match interpolate (get r "content") with
                        | Some content => Some ("data:image/png;base64," ++ content)
                        | None => None
                        end)
       | None => None
       end |}.

End View.

(* ================================================================= *)
(** ** A submission in time: before and after the awaits *)

Module Flight.

Import Page.

(** What [handleSubmit] does when validation fails. *)
Definition reject (st : State) : State * list event :=
  (setError (Some {| message := "A valid incantation and type are required." |}) st,
   [ToastError "Forbidden Incantation"
               "Provide a proper prompt and select a creation type."]).

(** What [handleSubmit] sets before it calls [fetch]. *)
Definition begin (st : State) : State :=
  setResult None (setError None (setLoading true st)).

(** The page between two events: its state, and the submissions whose
    [fetch] has not settled yet, each with the prompt and type it sent. *)
Record Config : Type := {
  ui : State;
  in_flight : list (string * GenerationType)
}.

Definition loaded : Config := {| ui := initial; in_flight := [] |}.

Section Machine.

Variable TypeError_read_null : string -> string.
Variable TypeError_to_primitive : string.

(** What [handleSubmit] does once its checked [fetch] has ended with
    [outcome], on the state of that moment: the end of the [try] block or
    the [catch] clause, then the [finally] clause. *)
Definition settle (outcome : completion json) (st : State) : State * list event :=
  let (st', toasts) :=
    match outcome with
    | Normal data => announce TypeError_to_primitive data st
    | Abrupt err => catch_clause err st
    end in
  (setLoading false st', toasts).

(** One event of the page.  A disabled control fires nothing, and a form
    whose submit button is disabled is not submitted; a submission in
    flight settles as its network decides. *)
Inductive ui_step : Config -> Config -> Prop :=
| edit_prompt (c : Config) (v : string) :
    View.input_disabled (View.Home (ui c)) = false ->
    ui_step c {| ui := handlePromptChange v (ui c); in_flight := in_flight c |}
| edit_type (c : Config) (v : GenerationType) :
    View.select_disabled (View.Home (ui c)) = false ->
    ui_step c {| ui := handleTypeChange v (ui c); in_flight := in_flight c |}
| submit_rejected (c : Config) :
    View.button_disabled (View.Home (ui c)) = false ->
    isFormValid (ui c) = false ->
    ui_step c {| ui := fst (reject (ui c)); in_flight := in_flight c |}
| submit_sent (c : Config) :
    View.button_disabled (View.Home (ui c)) = false ->
    isFormValid (ui c) = true ->
    ui_step c {| ui := begin (ui c);
                 in_flight := (in_flight c ++ [(prompt (ui c), type (ui c))])%list |}
| settled (c : Config) (before after : list (string * GenerationType))
          (p : string) (t : GenerationType)
          (network : string -> RequestInit -> completion HttpResponse) :
    in_flight c = (before ++ (p, t) :: after)%list ->
    ui_step c {| ui := fst (settle (fst (request TypeError_read_null
                                           TypeError_to_primitive network p t))
                                   (ui c));
                 in_flight := (before ++ after)%list |}.

(** The configurations the page can be in, from its first render on. *)
Inductive reachable : Config -> Prop :=
| reachable_loaded : reachable loaded
| reachable_step (c c' : Config) : reachable c -> ui_step c c' -> reachable c'.

End Machine.

End Flight.

(* ================================================================= *)
(** ** The form served by the endpoint *)

Module Wire.

Section Served.

Variable TypeError_destructure_null : string.
Variable provider : string -> string -> json -> completion string.
Variable env : Route.Env.

(** The network of the form when its [fetch] is answered by [POST], in
    time: [req.json()] gives back the value that [JSON.stringify] sent, and
    [NextResponse.json(body, { status })] arrives as a response with that
    status whose [json()] gives back [body]. *)
Definition served : string -> Page.RequestInit -> completion Page.HttpResponse :=
  fun _ init =>
    match fst (Route.POST TypeError_destructure_null provider env
                 {| Route.req_json := Normal (Page.body init) |}) with
    | Normal response =>
        Normal {| Page.status := Route.status response;
                  Page.response_json := Normal (Route.body response) |}
    | Abrupt e => Abrupt e
    end.

End Served.

End Wire.

(* ================================================================= *)
(** ** More concrete surroundings *)

Module Scene.

(** "hi" typed and "Vision (Image)" selected. *)
Definition typed_image : Page.State := Page.handleTypeChange Page.image Sample.typed.

(** The page with "hi" typed and nothing in flight. *)
Definition editing : Flight.Config :=
  {| Flight.ui := Sample.typed; Flight.in_flight := [] |}.

(** The same page right after the button was clicked. *)
Definition sending : Flight.Config :=
  {| Flight.ui := Flight.begin Sample.typed;
     Flight.in_flight := [("hi", Page.text)] |}.

(** A network on which every [fetch] rejects with [e]. *)
Definition rejecting (e : thrown)
  : string -> Page.RequestInit -> completion Page.HttpResponse :=
  fun _ _ => Abrupt e.

(** A response with [status] whose body does not parse. *)
Definition unparsed (status : N) : Page.HttpResponse :=
  {| Page.status := status;
     Page.response_json := Abrupt (ErrorInstance "Unexpected token < in JSON") |}.

(** An answer whose type is an object with a property of its own named
    [toString]: it is truthy and cannot be converted to a string. *)
Definition unnameable : json :=
  JObj [("type", JObj [("toString", JNum "0")]); ("content", JStr "x")].

(** A network that refuses every call with status 500 and "boom". *)
Definition refusing : string -> Page.RequestInit -> completion Page.HttpResponse :=
  Sample.responding (Sample.carrying 500 (JObj [("error", JStr "boom")])).

(** The page after "hi" was submitted and refused. *)
Definition refused : Flight.Config :=
  {| Flight.ui := fst (Page.handleSubmit Sample.read_null Sample.to_primitive
                         refusing Sample.typed);
     Flight.in_flight := [] |}.

End Scene.

(* ================================================================= *)
(** ** [isFormValid] over every string *)

Module Units.

(** A string as the sequence of its UTF-16 code units, each below 65536. *)
Definition units : Type := list N.

(** The code units of a string of the narrower alphabet of [Js]. *)
Definition of_string (s : string) : units :=
  map N_of_ascii (list_ascii_of_string s).

(** WhiteSpace and LineTerminator of ECMAScript, what
    [String.prototype.trim] strips: U+0009 to U+000D, U+0020, U+00A0,
    U+1680, U+2000 to U+200A, U+2028, U+2029, U+202F, U+205F, U+3000 and
    U+FEFF.  Each is a single code unit. *)
Definition isWhiteSpace (c : N) : bool :=
  existsb (N.eqb c)
    [9; 10; 11; 12; 13; 32; 160; 5760;
     8192; 8193; 8194; 8195; 8196; 8197; 8198; 8199; 8200; 8201; 8202;
     8232; 8233; 8239; 8287; 12288; 65279]%N.

Fixpoint trimStart (s : units) : units :=
  match s with
  | c :: rest => if isWhiteSpace c then trimStart rest else s
  | [] => []
  end.

Fixpoint trimEnd (s : units) : units :=
  match s with
  | c :: rest =>
      match trimEnd rest with
      | [] => if isWhiteSpace c then [] else [c]
      | kept => c :: kept
      end
  | [] => []
  end.

Definition trim (s : units) : units := trimEnd (trimStart s).

(** [prompt.trim().length > 0 && GENERATION_TYPES.includes(type)]. *)
Definition isFormValid (prompt : units) (type : Page.GenerationType) : bool :=
  Nat.ltb 0 (List.length (trim prompt))
  && existsb (Page.GenerationType_eqb type) Page.GENERATION_TYPES.

End Units.

(* ================================================================= *)
(** ** Facts about the JavaScript model *)

Lemma ToBoolean_string (s : string) :
  ToBoolean (Some (JStr s)) = true <-> s <> "".
Proof.
  simpl. destruct (String.eqb_spec s ""); simpl; split; congruence.
Qed.

Lemma strict_eq_string_true (x : value) (s : string) :
  strict_eq_string x s = true <-> x = Some (JStr s).
Proof.
  destruct x as [[ | | | s' | | ] | ]; simpl; try (split; congruence).
  destruct (String.eqb_spec s' s); split; congruence.
Qed.

Lemma includes_text_image (x : value) :
  includes ["text"; "image"] x = true <->
  x = Some (JStr "text") \/ x = Some (JStr "image").
Proof.
  unfold includes. simpl. rewrite orb_false_r, orb_true_iff.
  now rewrite !strict_eq_string_true.
Qed.

Lemma get_some_not_null (v : json) (k : string) (x : json) :
  get v k = Some x -> v <> JNull.
Proof. destruct v; simpl; congruence. Qed.

(* ================================================================= *)
(** ** The endpoint *)

Section RouteProperties.

Variable TypeError_destructure_null : string.
Variable provider : string -> string -> json -> completion string.

Import Route.

Local Abbreviation POST := (Route.POST TypeError_destructure_null provider).
Local Abbreviation try_block := (Route.try_block TypeError_destructure_null provider).

Lemma configured_key (env : Env) :
  configured env = true <->
  exists key, GEMINI_API_KEY env = Some key /\ key <> "".
Proof.
  unfold configured. destruct (GEMINI_API_KEY env) as [key | ].
  - destruct (String.eqb_spec key ""); simpl; split.
    + discriminate.
    + intros (k & Hk & Hne). congruence.
    + intros _. now exists key.
    + reflexivity.
  - split; [discriminate | intros (k & Hk & _); discriminate].
Qed.

(** The handler on a body that parsed to something other than [null],
    with the credential set: validation, then the branch on [type]. *)
Lemma POST_parsed (env : Env) (req : Request) (v : json) (key : string) :
  GEMINI_API_KEY env = Some key -> key <> "" ->
  req_json req = Normal v -> v <> JNull ->
  POST env req =
    if negb (ToBoolean (get v "prompt")) || negb (ToBoolean (get v "type"))
       || negb (includes ["text"; "image"] (get v "type"))
    then
      (Normal {| status := 400;
                 body := JObj [("error",
                                JStr "Prompt and valid type (text or image) are required")] |},
       [])
    else if strict_eq_string (get v "type") "text" then
      let p := match get v "prompt" with Some p => p | None => JNull end in
      match provider key "gemini-1.5-flash" p with
      | Normal text =>
          (Normal {| status := 200;
                     body := JObj [("type", JStr "text"); ("content", JStr text)] |},
           [GenerateContent key "gemini-1.5-flash" p])
      | Abrupt e =>
          (Normal {| status := 500;
                     body := JObj [("error", JStr (message_or "Internal server error" e))] |},
           [GenerateContent key "gemini-1.5-flash" p; ConsoleError "API Error:" e])
      end
    else
      (Normal {| status := 501;
                 body := JObj [("error", JStr "Image generation not supported in this version")] |},
       []).
Proof.
  intros Hkey Hne Hreq Hnull.
  assert (Hconf : configured env = true) by (apply configured_key; eauto).
  unfold Route.POST, Route.try_block. rewrite Hconf, Hreq, Hkey. cbn [negb].
  assert (Hd : destructure TypeError_destructure_null v
               = ret (get v "prompt", get v "type"))
    by (destruct v; try reflexivity; congruence).
  unfold bind at 1. cbn [ret]. rewrite Hd. unfold bind at 1. cbn [ret].
  destruct (negb (ToBoolean (get v "prompt")) || negb (ToBoolean (get v "type"))
            || negb (includes ["text"; "image"] (get v "type"))); [reflexivity | ].
  destruct (strict_eq_string (get v "type") "text"); [ | reflexivity].
  cbn. destruct (provider key "gemini-1.5-flash" _); reflexivity.
Qed.

(** The handler always completes normally, with a response. *)
Lemma POST_total (env : Env) (req : Request) :
  exists response, fst (POST env req) = Normal response.
Proof.
  unfold Route.POST, try_catch.
  destruct (try_block env req) as [[response | e] log]; cbn; eauto.
Qed.

(** C1. A request with a non-empty prompt and type "text", on which the
    provider (reached with the configured credential and the fixed model)
    returns the text [T], is answered with status 200 and the body
    [{ "type": "text", "content": T }]; the provider is called once, with
    the prompt as received. *)
Theorem POST_text_returns_content
    (env : Env) (req : Request) (v : json) (key s T : string) :
  GEMINI_API_KEY env = Some key -> key <> "" ->
  req_json req = Normal v ->
  get v "prompt" = Some (JStr s) -> s <> "" ->
  get v "type" = Some (JStr "text") ->
  provider key "gemini-1.5-flash" (JStr s) = Normal T ->
  POST env req =
    (Normal {| status := 200;
               body := JObj [("type", JStr "text"); ("content", JStr T)] |},
     [GenerateContent key "gemini-1.5-flash" (JStr s)]).
Proof.
  intros Hkey Hne Hreq Hprompt Hs Htype Hprov.
  rewrite (POST_parsed env req v key Hkey Hne Hreq (get_some_not_null _ _ _ Hprompt)).
  rewrite Hprompt, Htype.
  apply ToBoolean_string in Hs. rewrite Hs. cbn. now rewrite Hprov.
Qed.

(** C2, as the code has it. For a request with type "image" the provider is
    never called. With the credential set, the answer is status 501 with
    the fixed body when the prompt is truthy (a non-empty string, say), and
    the 400 validation error when the prompt is missing or empty: body
    validation comes before the branch on the type. *)
Theorem POST_image_not_supported (env : Env) (req : Request) (v : json) :
  req_json req = Normal v ->
  get v "type" = Some (JStr "image") ->
  provider_calls (POST env req) = []
  /\ (configured env = true -> ToBoolean (get v "prompt") = true ->
      POST env req =
        (Normal {| status := 501;
                   body := JObj [("error",
                                  JStr "Image generation not supported in this version")] |},
         []))
  /\ (configured env = true -> ToBoolean (get v "prompt") = false ->
      POST env req =
        (Normal {| status := 400;
                   body := JObj [("error",
                                  JStr "Prompt and valid type (text or image) are required")] |},
         [])).
Proof.
  intros Hreq Htype.
  pose proof (get_some_not_null _ _ _ Htype) as Hnull.
  destruct (configured env) eqn:Hconf.
  - destruct (proj1 (configured_key env) Hconf) as (key & Hkey & Hne).
    rewrite (POST_parsed env req v key Hkey Hne Hreq Hnull), Htype.
    destruct (ToBoolean (get v "prompt")); cbn; repeat split; congruence.
  - unfold Route.POST, Route.try_block. rewrite Hconf. cbn.
    repeat split; discriminate.
Qed.

(** C3. Without the credential (unset, or set to the empty string) every
    request gets status 500 with the fixed body, whatever [req.json()]
    would give, be it a rejection; nothing is called and nothing is logged. *)
Theorem POST_missing_key (env : Env) (req : Request) :
  configured env = false ->
  POST env req =
    (Normal {| status := 500;
               body := JObj [("error",
                              JStr "Server configuration error: Missing API key")] |},
     []).
Proof.
  intros Hconf. unfold Route.POST, Route.try_block. now rewrite Hconf.
Qed.

(** C4, as the code has it. With the credential set, a request whose body
    parses to a value other than [null] and has no [prompt], or no [type],
    or a [type] that is neither "text" nor "image", gets status 400 with
    the fixed body, and the provider is not called. *)
Theorem POST_validation_failure (env : Env) (req : Request) (v : json) :
  configured env = true ->
  req_json req = Normal v -> v <> JNull ->
  get v "prompt" = None \/ get v "type" = None
  \/ ~ (get v "type" = Some (JStr "text") \/ get v "type" = Some (JStr "image")) ->
  POST env req =
    (Normal {| status := 400;
               body := JObj [("error",
                              JStr "Prompt and valid type (text or image) are required")] |},
     []).
Proof.
  intros Hconf Hreq Hnull Hbad.
  destruct (proj1 (configured_key env) Hconf) as (key & Hkey & Hne).
  rewrite (POST_parsed env req v key Hkey Hne Hreq Hnull).
  destruct Hbad as [Hp | [Ht | Ht]].
  - now rewrite Hp.
  - rewrite Ht. cbn. now rewrite orb_true_r.
  - destruct (includes ["text"; "image"] (get v "type")) eqn:Hin.
    + apply includes_text_image in Hin. contradiction.
    + cbn. now rewrite orb_true_r.
Qed.

(** C5, as the code has it. With the credential set, a request whose prompt
    is the empty string gets status 400 and is not forwarded to the
    provider.  The endpoint tests the prompt as received: it does not trim. *)
Theorem POST_empty_prompt_rejected (env : Env) (req : Request) (v : json) :
  configured env = true ->
  req_json req = Normal v ->
  get v "prompt" = Some (JStr "") ->
  POST env req =
    (Normal {| status := 400;
               body := JObj [("error",
                              JStr "Prompt and valid type (text or image) are required")] |},
     []).
Proof.
  intros Hconf Hreq Hprompt.
  destruct (proj1 (configured_key env) Hconf) as (key & Hkey & Hne).
  rewrite (POST_parsed env req v key Hkey Hne Hreq (get_some_not_null _ _ _ Hprompt)).
  now rewrite Hprompt.
Qed.

(** C6. When the call of the provider throws [e], the handler logs it and
    answers with status 500 and, as [error], the message of [e] if [e] is an
    [Error] and "Internal server error" otherwise.  No run of the handler
    ends abruptly. *)
Theorem POST_provider_exception
    (env : Env) (req : Request) (v p : json) (key : string) (e : thrown) :
  GEMINI_API_KEY env = Some key -> key <> "" ->
  req_json req = Normal v ->
  get v "prompt" = Some p -> ToBoolean (Some p) = true ->
  get v "type" = Some (JStr "text") ->
  provider key "gemini-1.5-flash" p = Abrupt e ->
  POST env req =
    (Normal {| status := 500;
               body := JObj [("error",
                              JStr match e with
                                   | ErrorInstance message => message
                                   | NotAnError => "Internal server error"
                                   end)] |},
     [GenerateContent key "gemini-1.5-flash" p; ConsoleError "API Error:" e])
  /\ (forall env' req', exists response, fst (POST env' req') = Normal response).
Proof.
  intros Hkey Hne Hreq Hprompt Htruthy Htype Hprov. split.
  - rewrite (POST_parsed env req v key Hkey Hne Hreq (get_some_not_null _ _ _ Hprompt)).
    rewrite Hprompt, Htype, Htruthy. cbn. rewrite Hprov. now destruct e.
  - apply POST_total.
Qed.

(** C10. With the credential set, a request whose body does not parse as
    JSON ([req.json()] rejects with a SyntaxError of message [message]) gets
    status 500 carrying that message, not the 400 validation error. *)
Theorem POST_unparseable_body (env : Env) (req : Request) (message : string) :
  configured env = true ->
  req_json req = Abrupt (ErrorInstance message) ->
  POST env req =
    (Normal {| status := 500; body := JObj [("error", JStr message)] |},
     [ConsoleError "API Error:" (ErrorInstance message)]).
Proof.
  intros Hconf Hreq. unfold Route.POST, Route.try_block. now rewrite Hconf, Hreq.
Qed.

(** A body that parses to [null] cannot be destructured: the TypeError
    lands in the catch-all, status 500 with the engine's message. *)
Lemma POST_null_body (env : Env) (req : Request) :
  configured env = true ->
  req_json req = Normal JNull ->
  POST env req =
    (Normal {| status := 500;
               body := JObj [("error", JStr TypeError_destructure_null)] |},
     [ConsoleError "API Error:" (ErrorInstance TypeError_destructure_null)]).
Proof.
  intros Hconf Hreq. unfold Route.POST, Route.try_block. now rewrite Hconf, Hreq.
Qed.

End RouteProperties.

(** *** The endpoint on concrete requests *)

(** The scenario of the specification: "A haunted castle", type "text". *)
Lemma POST_text_returns_content_witness :
  Route.POST Sample.destructure_null (Sample.answering "It was a dark night...")
    Sample.env (Sample.posting (JStr "A haunted castle") (JStr "text"))
  = (Normal {| Route.status := 200;
               Route.body := JObj [("type", JStr "text");
                                   ("content", JStr "It was a dark night...")] |},
     [Route.GenerateContent "secret" "gemini-1.5-flash" (JStr "A haunted castle")]).
Proof.
  apply (POST_text_returns_content Sample.destructure_null
           (Sample.answering "It was a dark night...") Sample.env
           (Sample.posting (JStr "A haunted castle") (JStr "text"))
           (JObj [("prompt", JStr "A haunted castle"); ("type", JStr "text")])
           "secret" "A haunted castle" "It was a dark night...");
    first [reflexivity | discriminate].
Defined.

(** C2 as stated fails: an "image" request with an empty prompt is answered
    with the 400 validation error, not with 501. *)
Lemma POST_image_empty_prompt :
  Route.POST Sample.destructure_null (Sample.answering "unused")
    Sample.env (Sample.posting (JStr "") (JStr "image"))
  = (Normal {| Route.status := 400;
               Route.body := JObj [("error",
                                    JStr "Prompt and valid type (text or image) are required")] |},
     []).
Proof. reflexivity. Qed.

Lemma POST_image_not_supported_witness :
  Route.POST Sample.destructure_null (Sample.answering "unused")
    Sample.env (Sample.posting (JStr "A haunted castle") (JStr "image"))
  = (Normal {| Route.status := 501;
               Route.body := JObj [("error",
                                    JStr "Image generation not supported in this version")] |},
     []).
Proof.
  apply (POST_image_not_supported Sample.destructure_null (Sample.answering "unused")
           Sample.env (Sample.posting (JStr "A haunted castle") (JStr "image"))
           (JObj [("prompt", JStr "A haunted castle"); ("type", JStr "image")])
           eq_refl eq_refl);
    reflexivity.
Defined.

(** The credential set to the empty string, and a body that does not parse. *)
Lemma POST_missing_key_witness :
  Route.POST Sample.destructure_null (Sample.answering "unused")
    {| Route.GEMINI_API_KEY := Some "" |}
    {| Route.req_json := Abrupt (ErrorInstance "Unexpected end of JSON input") |}
  = (Normal {| Route.status := 500;
               Route.body := JObj [("error",
                                    JStr "Server configuration error: Missing API key")] |},
     []).
Proof.
  apply (POST_missing_key Sample.destructure_null (Sample.answering "unused")
           {| Route.GEMINI_API_KEY := Some "" |}
           {| Route.req_json := Abrupt (ErrorInstance "Unexpected end of JSON input") |});
    reflexivity.
Defined.

(** C4 as stated fails: a body of [null] has neither [prompt] nor [type],
    and it is answered with status 500: destructuring it throws, and the
    TypeError lands in the catch clause. *)
Lemma POST_null_body_answered_500 :
  get JNull "prompt" = None
  /\ get JNull "type" = None
  /\ Route.POST Sample.destructure_null (Sample.answering "unused") Sample.env
       {| Route.req_json := Normal JNull |}
     = (Normal {| Route.status := 500;
                  Route.body := JObj [("error", JStr Sample.destructure_null)] |},
        [Route.ConsoleError "API Error:" (ErrorInstance Sample.destructure_null)]).
Proof. repeat split. Qed.

(** A body with a prompt and the type "video". *)
Lemma POST_validation_failure_witness :
  Route.POST Sample.destructure_null (Sample.answering "unused")
    Sample.env (Sample.posting (JStr "A haunted castle") (JStr "video"))
  = (Normal {| Route.status := 400;
               Route.body := JObj [("error",
                                    JStr "Prompt and valid type (text or image) are required")] |},
     []).
Proof.
  apply (POST_validation_failure Sample.destructure_null (Sample.answering "unused")
           Sample.env (Sample.posting (JStr "A haunted castle") (JStr "video"))
           (JObj [("prompt", JStr "A haunted castle"); ("type", JStr "video")]));
    [reflexivity | reflexivity | discriminate | ].
  right. right. intros [H | H]; discriminate H.
Defined.

(** C5 as stated fails: a prompt of three spaces is empty after trimming,
    and yet the endpoint forwards it to the provider and answers 200. *)
Lemma POST_blank_prompt_forwarded :
  trim "   " = ""
  /\ Route.POST Sample.destructure_null (Sample.answering "Once upon a time")
       Sample.env (Sample.posting (JStr "   ") (JStr "text"))
     = (Normal {| Route.status := 200;
                  Route.body := JObj [("type", JStr "text");
                                      ("content", JStr "Once upon a time")] |},
        [Route.GenerateContent "secret" "gemini-1.5-flash" (JStr "   ")]).
Proof. split; reflexivity. Qed.

Lemma POST_empty_prompt_rejected_witness :
  Route.POST Sample.destructure_null (Sample.answering "unused")
    Sample.env (Sample.posting (JStr "") (JStr "text"))
  = (Normal {| Route.status := 400;
               Route.body := JObj [("error",
                                    JStr "Prompt and valid type (text or image) are required")] |},
     []).
Proof.
  apply (POST_empty_prompt_rejected Sample.destructure_null (Sample.answering "unused")
           Sample.env (Sample.posting (JStr "") (JStr "text"))
           (JObj [("prompt", JStr ""); ("type", JStr "text")]));
    reflexivity.
Defined.

(** The provider throws an [Error] whose message is "fetch failed". *)
Lemma POST_provider_exception_witness :
  Route.POST Sample.destructure_null (Sample.failing (ErrorInstance "fetch failed"))
    Sample.env (Sample.posting (JStr "A haunted castle") (JStr "text"))
  = (Normal {| Route.status := 500;
               Route.body := JObj [("error", JStr "fetch failed")] |},
     [Route.GenerateContent "secret" "gemini-1.5-flash" (JStr "A haunted castle");
      Route.ConsoleError "API Error:" (ErrorInstance "fetch failed")]).
Proof.
  apply (POST_provider_exception Sample.destructure_null
           (Sample.failing (ErrorInstance "fetch failed")) Sample.env
           (Sample.posting (JStr "A haunted castle") (JStr "text"))
           (JObj [("prompt", JStr "A haunted castle"); ("type", JStr "text")])
           (JStr "A haunted castle") "secret" (ErrorInstance "fetch failed"));
    first [reflexivity | discriminate].
Defined.

Lemma POST_unparseable_body_witness :
  Route.POST Sample.destructure_null (Sample.answering "unused") Sample.env
    {| Route.req_json := Abrupt (ErrorInstance "Unexpected end of JSON input") |}
  = (Normal {| Route.status := 500;
               Route.body := JObj [("error", JStr "Unexpected end of JSON input")] |},
     [Route.ConsoleError "API Error:" (ErrorInstance "Unexpected end of JSON input")]).
Proof.
  apply (POST_unparseable_body Sample.destructure_null (Sample.answering "unused")
           Sample.env
           {| Route.req_json := Abrupt (ErrorInstance "Unexpected end of JSON input") |}
           "Unexpected end of JSON input");
    reflexivity.
Defined.

(* ================================================================= *)
(** ** The form *)

Section PageProperties.

Variable TypeError_read_null : string -> string.
Variable TypeError_to_primitive : string.
Variable network : string -> Page.RequestInit -> completion Page.HttpResponse.

Import Page.

Local Abbreviation request := (Page.request TypeError_read_null TypeError_to_primitive network).
Local Abbreviation handleSubmit := (Page.handleSubmit TypeError_read_null TypeError_to_primitive network).

Lemma handleSubmit_invalid (st : State) :
  isFormValid st = false ->
  handleSubmit st =
    (setError (Some {| message := "A valid incantation and type are required." |}) st,
     [ToastError "Forbidden Incantation"
                 "Provide a proper prompt and select a creation type."]).
Proof. intros H. unfold Page.handleSubmit. now rewrite H. Qed.

(** After a submission that passed validation and whose [try] block threw. *)
Lemma handleSubmit_caught (st : State) (err : thrown) (calls : list event) :
  isFormValid st = true ->
  request (prompt st) (type st) = (Abrupt err, calls) ->
  fst (handleSubmit st) =
    {| prompt := prompt st; type := type st; result := None; loading := false;
       error := Some {| message := message_or "The abyss rejected your request." err |} |}.
Proof.
  intros Hvalid Hreq. unfold Page.handleSubmit. now rewrite Hvalid, Hreq.
Qed.

(** After a submission that passed validation and whose [try] block
    went through with [data]. *)
Lemma handleSubmit_stored (st : State) (data : json) (calls : list event) :
  isFormValid st = true ->
  request (prompt st) (type st) = (Normal data, calls) ->
  fst (handleSubmit st) =
    {| prompt := prompt st; type := type st; result := Some data; loading := false;
       error := match interpolate (get data "type") with
                | Some _ => None
                | None => Some {| message := TypeError_to_primitive |}
                end |}.
Proof.
  intros Hvalid Hreq. unfold Page.handleSubmit, announce, catch_clause.
  rewrite Hvalid, Hreq. now destruct (interpolate (get data "type")).
Qed.

(** The [try] block on a 2xx response whose body parsed to something
    other than [null]. *)
Lemma request_ok (p : string) (t : GenerationType) (response : HttpResponse) (data : json) :
  network "/api/generate" (request_init p t) = Normal response ->
  ok response = true ->
  response_json response = Normal data -> data <> JNull ->
  request p t =
    (if ToBoolean (get data "type") && ToBoolean (get data "content")
     then Normal data
     else Abrupt (ErrorInstance "Invalid response from the abyss"),
     [Fetch "/api/generate" (request_init p t)]).
Proof.
  intros Hnet Hok Hjson Hnull.
  assert (Hread : forall k, read TypeError_read_null data k = ret (get data k))
    by (intros k; destruct data; try reflexivity; congruence).
  unfold Page.request. rewrite Hnet. unfold call, bind at 1.
  rewrite Hok, Hjson. cbn [negb]. unfold bind at 1. rewrite !Hread.
  unfold bind at 1. cbn [ret].
  destruct (ToBoolean (get data "type")); cbn; [ | reflexivity].
  now destruct (ToBoolean (get data "content")).
Qed.

(** C7, as the code has it. On the local validation rejection an error
    message is stored and no network call is made, and the stored result
    and the loading flag are left as they were.  When the [try] block of a
    submission that passed validation throws before the result is stored,
    the stored result is cleared to null, the error message is stored and
    the loading flag ends up false.  When it throws after the result is
    stored (the success toast cannot convert the type of the response to a
    string), the error message is stored and the loading flag ends up
    false, and the result is the response. *)
Theorem handleSubmit_failure_paths (st : State) :
  (isFormValid st = false ->
   error (fst (handleSubmit st))
     = Some {| message := "A valid incantation and type are required." |}
   /\ result (fst (handleSubmit st)) = result st
   /\ loading (fst (handleSubmit st)) = loading st
   /\ filter is_Fetch (snd (handleSubmit st)) = [])
  /\ (isFormValid st = true ->
      forall err calls, request (prompt st) (type st) = (Abrupt err, calls) ->
      result (fst (handleSubmit st)) = None
      /\ error (fst (handleSubmit st))
           = Some {| message := match err with
                                | ErrorInstance message => message
                                | NotAnError => "The abyss rejected your request."
                                end |}
      /\ loading (fst (handleSubmit st)) = false)
  /\ (isFormValid st = true ->
      forall data calls, request (prompt st) (type st) = (Normal data, calls) ->
      interpolate (get data "type") = None ->
      result (fst (handleSubmit st)) = Some data
      /\ error (fst (handleSubmit st)) = Some {| message := TypeError_to_primitive |}
      /\ loading (fst (handleSubmit st)) = false).
Proof.
  split; [ | split].
  - intros H. rewrite (handleSubmit_invalid st H). now cbn.
  - intros H err calls Hreq. rewrite (handleSubmit_caught st err calls H Hreq).
    now destruct err.
  - intros H data calls Hreq Hthrows.
    rewrite (handleSubmit_stored st data calls H Hreq), Hthrows. now cbn.
Qed.

(** C8, as the code has it. On a 2xx response whose body parses (to
    something other than [null]), the form requires [type] and [content] to
    be truthy: if either is missing or falsy, the empty string included, the
    response is a failure with the error "Invalid response from the abyss";
    otherwise the parsed body is stored as the result.  No error is stored
    with it when [type] can be converted to a string for the success
    toast; when that conversion throws, its TypeError is stored as well. *)
Theorem handleSubmit_checks_response
    (st : State) (response : HttpResponse) (data : json) :
  isFormValid st = true ->
  network "/api/generate" (request_init (prompt st) (type st)) = Normal response ->
  ok response = true ->
  response_json response = Normal data -> data <> JNull ->
  (ToBoolean (get data "type") = false \/ ToBoolean (get data "content") = false ->
   result (fst (handleSubmit st)) = None
   /\ error (fst (handleSubmit st))
        = Some {| message := "Invalid response from the abyss" |}
   /\ loading (fst (handleSubmit st)) = false)
  /\ (ToBoolean (get data "type") = true /\ ToBoolean (get data "content") = true ->
      result (fst (handleSubmit st)) = Some data
      /\ loading (fst (handleSubmit st)) = false
      /\ (interpolate (get data "type") <> None ->
          error (fst (handleSubmit st)) = None)
      /\ (interpolate (get data "type") = None ->
          error (fst (handleSubmit st))
            = Some {| message := TypeError_to_primitive |})).
Proof.
  intros Hvalid Hnet Hok Hjson Hnull.
  pose proof (request_ok _ _ response data Hnet Hok Hjson Hnull) as Hreq.
  split.
  - intros Hfalsy.
    assert (Hand : ToBoolean (get data "type") && ToBoolean (get data "content") = false)
      by (apply andb_false_iff; exact Hfalsy).
    rewrite Hand in Hreq. now rewrite (handleSubmit_caught st _ _ Hvalid Hreq).
  - intros [Ht Hc]. rewrite Ht, Hc in Hreq. cbn in Hreq.
    rewrite (handleSubmit_stored st _ _ Hvalid Hreq). cbn.
    destruct (interpolate (get data "type")); repeat split; congruence.
Qed.

(** A 2xx response whose body parses to [null]: reading [data.type] throws,
    and the failure carries the engine's message. *)
Lemma handleSubmit_null_response (st : State) (response : HttpResponse) :
  isFormValid st = true ->
  network "/api/generate" (request_init (prompt st) (type st)) = Normal response ->
  ok response = true ->
  response_json response = Normal JNull ->
  result (fst (handleSubmit st)) = None
  /\ error (fst (handleSubmit st)) = Some {| message := TypeError_read_null "type" |}.
Proof.
  intros Hvalid Hnet Hok Hjson.
  assert (Hreq : request (prompt st) (type st)
                 = (Abrupt (ErrorInstance (TypeError_read_null "type")),
                    [Fetch "/api/generate" (request_init (prompt st) (type st))])).
  { unfold Page.request. rewrite Hnet. cbn. now rewrite Hok, Hjson. }
  now rewrite (handleSubmit_caught st _ _ Hvalid Hreq).
Qed.

End PageProperties.

(** *** The form on concrete runs *)

(** C7 as stated fails on the local validation rejection: a result stored
    by an earlier submission is still there after a rejected one. *)
Lemma handleSubmit_rejection_keeps_result :
  Page.isFormValid Sample.blanked = false
  /\ Page.result Sample.blanked = Some Sample.hello
  /\ Page.handleSubmit Sample.read_null Sample.to_primitive
       (Sample.responding (Sample.carrying 200 Sample.hello)) Sample.blanked
     = ({| Page.prompt := ""; Page.type := Page.text;
           Page.result := Some Sample.hello;
           Page.loading := false;
           Page.error :=
             Some {| Page.message := "A valid incantation and type are required." |} |},
        [Page.ToastError "Forbidden Incantation"
           "Provide a proper prompt and select a creation type."]).
Proof. repeat split. Qed.

(** A rejected submission of the emptied form; a submission of "hi"
    answered with status 500 and [{ "error": "boom" }]; and one answered
    with status 200 and a type that cannot be converted to a string. *)
Lemma handleSubmit_failure_paths_witness :
  (Page.error (fst (Page.handleSubmit Sample.read_null Sample.to_primitive
                      (Sample.responding (Sample.carrying 200 Sample.hello))
                      Sample.blanked))
     = Some {| Page.message := "A valid incantation and type are required." |}
   /\ Page.result (fst (Page.handleSubmit Sample.read_null Sample.to_primitive
                          (Sample.responding (Sample.carrying 200 Sample.hello))
                          Sample.blanked))
        = Page.result Sample.blanked
   /\ Page.loading (fst (Page.handleSubmit Sample.read_null Sample.to_primitive
                           (Sample.responding (Sample.carrying 200 Sample.hello))
                           Sample.blanked))
        = Page.loading Sample.blanked
   /\ filter Page.is_Fetch
        (snd (Page.handleSubmit Sample.read_null Sample.to_primitive
                (Sample.responding (Sample.carrying 200 Sample.hello))
                Sample.blanked))
      = [])
  /\ (Page.result (fst (Page.handleSubmit Sample.read_null Sample.to_primitive
                          Scene.refusing Sample.typed))
        = None
      /\ Page.error (fst (Page.handleSubmit Sample.read_null Sample.to_primitive
                            Scene.refusing Sample.typed))
           = Some {| Page.message := "boom" |}
      /\ Page.loading (fst (Page.handleSubmit Sample.read_null Sample.to_primitive
                              Scene.refusing Sample.typed))
           = false)
  /\ (Page.result (fst (Page.handleSubmit Sample.read_null Sample.to_primitive
                          (Sample.responding (Sample.carrying 200 Scene.unnameable))
                          Sample.typed))
        = Some Scene.unnameable
      /\ Page.error (fst (Page.handleSubmit Sample.read_null Sample.to_primitive
                            (Sample.responding (Sample.carrying 200 Scene.unnameable))
                            Sample.typed))
           = Some {| Page.message := Sample.to_primitive |}
      /\ Page.loading (fst (Page.handleSubmit Sample.read_null Sample.to_primitive
                              (Sample.responding (Sample.carrying 200 Scene.unnameable))
                              Sample.typed))
           = false).
Proof.
  split; [ | split].
  - apply (proj1 (handleSubmit_failure_paths Sample.read_null Sample.to_primitive
                    (Sample.responding (Sample.carrying 200 Sample.hello))
                    Sample.blanked)).
    reflexivity.
  - apply (proj1 (proj2 (handleSubmit_failure_paths Sample.read_null Sample.to_primitive
                           Scene.refusing Sample.typed))
             eq_refl (ErrorInstance "boom")
             [Page.Fetch "/api/generate" (Page.request_init "hi" Page.text)]).
    reflexivity.
  - apply (proj2 (proj2 (handleSubmit_failure_paths Sample.read_null Sample.to_primitive
                           (Sample.responding (Sample.carrying 200 Scene.unnameable))
                           Sample.typed))
             eq_refl Scene.unnameable
             [Page.Fetch "/api/generate" (Page.request_init "hi" Page.text)]);
      reflexivity.
Defined.

(** C8 as stated fails: [type] and [content] are both present in
    [{ "type": "text", "content": "" }], and the response is still refused. *)
Lemma handleSubmit_empty_content_refused :
  get Sample.empty_content "type" = Some (JStr "text")
  /\ get Sample.empty_content "content" = Some (JStr "")
  /\ Page.ok (Sample.carrying 200 Sample.empty_content) = true
  /\ fst (Page.handleSubmit Sample.read_null Sample.to_primitive
            (Sample.responding (Sample.carrying 200 Sample.empty_content))
            Sample.typed)
     = {| Page.prompt := "hi"; Page.type := Page.text;
          Page.result := None;
          Page.loading := false;
          Page.error := Some {| Page.message := "Invalid response from the abyss" |} |}.
Proof. repeat split. Qed.

(** "hi" answered with an empty content, and with "Hello". *)
Lemma handleSubmit_checks_response_witness :
  (Page.result (fst (Page.handleSubmit Sample.read_null Sample.to_primitive
                       (Sample.responding (Sample.carrying 200 Sample.empty_content))
                       Sample.typed))
     = None
   /\ Page.error (fst (Page.handleSubmit Sample.read_null Sample.to_primitive
                         (Sample.responding (Sample.carrying 200 Sample.empty_content))
                         Sample.typed))
        = Some {| Page.message := "Invalid response from the abyss" |}
   /\ Page.loading (fst (Page.handleSubmit Sample.read_null Sample.to_primitive
                           (Sample.responding (Sample.carrying 200 Sample.empty_content))
                           Sample.typed))
        = false)
  /\ (Page.result (fst (Page.handleSubmit Sample.read_null Sample.to_primitive
                          (Sample.responding (Sample.carrying 200 Sample.hello))
                          Sample.typed))
        = Some Sample.hello
      /\ Page.loading (fst (Page.handleSubmit Sample.read_null Sample.to_primitive
                              (Sample.responding (Sample.carrying 200 Sample.hello))
                              Sample.typed))
           = false
      /\ Page.error (fst (Page.handleSubmit Sample.read_null Sample.to_primitive
                            (Sample.responding (Sample.carrying 200 Sample.hello))
                            Sample.typed))
           = None).
Proof.
  split.
  - apply (proj1 (handleSubmit_checks_response Sample.read_null Sample.to_primitive
                    (Sample.responding (Sample.carrying 200 Sample.empty_content))
                    Sample.typed (Sample.carrying 200 Sample.empty_content)
                    Sample.empty_content eq_refl eq_refl eq_refl eq_refl
                    ltac:(discriminate))).
    right. reflexivity.
  - destruct (proj2 (handleSubmit_checks_response Sample.read_null Sample.to_primitive
                       (Sample.responding (Sample.carrying 200 Sample.hello))
                       Sample.typed (Sample.carrying 200 Sample.hello)
                       Sample.hello eq_refl eq_refl eq_refl eq_refl
                       ltac:(discriminate))
                    (conj eq_refl eq_refl))
      as (Hresult & Hloading & Herror & _).
    split; [exact Hresult | ]. split; [exact Hloading | ].
    apply Herror. discriminate.
Defined.


(* ================================================================= *)
(** ** More on the JavaScript model: [trim] and [slice] *)

Lemma trimStart_empty (s : string) :
  trimStart s = "" <->
  forall c, In c (list_ascii_of_string s) -> isWhiteSpace c = true.
Proof.
  induction s as [ | a s IH]; cbn [trimStart list_ascii_of_string].
  - split; [intros _ c [] | reflexivity].
  - destruct (isWhiteSpace a) eqn:Ha.
    + rewrite IH. split.
      * intros H c [<- | Hc]; auto.
      * intros H c Hc. apply H. now right.
    + split; [discriminate | ].
      intros H. specialize (H a (or_introl eq_refl)). congruence.
Qed.

Lemma trimStart_head (s : string) (c : ascii) (rest : string) :
  trimStart s = String c rest ->
  isWhiteSpace c = false /\ In c (list_ascii_of_string s).
Proof.
  induction s as [ | a s IH]; cbn [trimStart list_ascii_of_string].
  - discriminate.
  - destruct (isWhiteSpace a) eqn:Ha.
    + intros H. destruct (IH H). split; [assumption | now right].
    + intros [= <- <-]. split; [assumption | now left].
Qed.

Lemma trimEnd_empty (s : string) :
  trimEnd s = "" <->
  forall c, In c (list_ascii_of_string s) -> isWhiteSpace c = true.
Proof.
  induction s as [ | a s IH]; cbn [trimEnd list_ascii_of_string].
  - split; [intros _ c [] | reflexivity].
  - destruct (trimEnd s) as [ | k kept] eqn:Hk.
    + destruct (isWhiteSpace a) eqn:Ha.
      * split; [ | reflexivity].
        intros _ c [<- | Hc]; [assumption | ]. now apply (proj1 IH).
      * split; [discriminate | ].
        intros H. specialize (H a (or_introl eq_refl)). congruence.
    + split; [discriminate | ].
      intros H. assert (String k kept = "") by (apply IH; intros c Hc; apply H; now right).
      discriminate.
Qed.

(** [s.trim()] is empty exactly when [s] holds white space only. *)
Lemma trim_empty (s : string) :
  trim s = "" <->
  forall c, In c (list_ascii_of_string s) -> isWhiteSpace c = true.
Proof.
  unfold trim. destruct (trimStart s) as [ | c rest] eqn:Hs.
  - cbn. rewrite <- trimStart_empty. tauto.
  - destruct (trimStart_head s c rest Hs) as [Hc Hin]. split.
    + intros H. apply trimEnd_empty with (c := c) in H; [congruence | now left].
    + intros H. specialize (H c Hin). congruence.
Qed.

Lemma units_trimStart_empty (s : Units.units) :
  Units.trimStart s = [] <-> forall c, In c s -> Units.isWhiteSpace c = true.
Proof.
  induction s as [ | a s IH]; cbn [Units.trimStart].
  - split; [intros _ c [] | reflexivity].
  - destruct (Units.isWhiteSpace a) eqn:Ha.
    + rewrite IH. split.
      * intros H c [<- | Hc]; auto.
      * intros H c Hc. apply H. now right.
    + split; [discriminate | ].
      intros H. specialize (H a (or_introl eq_refl)). congruence.
Qed.

Lemma units_trimStart_head (s : Units.units) (c : N) (rest : Units.units) :
  Units.trimStart s = c :: rest -> Units.isWhiteSpace c = false /\ In c s.
Proof.
  induction s as [ | a s IH]; cbn [Units.trimStart].
  - discriminate.
  - destruct (Units.isWhiteSpace a) eqn:Ha.
    + intros H. destruct (IH H). split; [assumption | now right].
    + intros [= <- <-]. split; [assumption | now left].
Qed.

Lemma units_trimEnd_empty (s : Units.units) :
  Units.trimEnd s = [] <-> forall c, In c s -> Units.isWhiteSpace c = true.
Proof.
  induction s as [ | a s IH]; cbn [Units.trimEnd].
  - split; [intros _ c [] | reflexivity].
  - destruct (Units.trimEnd s) as [ | k kept] eqn:Hk.
    + destruct (Units.isWhiteSpace a) eqn:Ha.
      * split; [ | reflexivity].
        intros _ c [<- | Hc]; [assumption | ]. now apply (proj1 IH).
      * split; [discriminate | ].
        intros H. specialize (H a (or_introl eq_refl)). congruence.
    + split; [discriminate | ].
      intros H. assert (k :: kept = []) by (apply IH; intros c Hc; apply H; now right).
      discriminate.
Qed.

Lemma units_trim_empty (s : Units.units) :
  Units.trim s = [] <-> forall c, In c s -> Units.isWhiteSpace c = true.
Proof.
  unfold Units.trim. destruct (Units.trimStart s) as [ | c rest] eqn:Hs.
  - cbn. rewrite <- units_trimStart_empty. tauto.
  - destruct (units_trimStart_head s c rest Hs) as [Hc Hin]. split.
    + intros H. apply units_trimEnd_empty with (c := c) in H; [congruence | now left].
    + intros H. specialize (H c Hin). congruence.
Qed.

Lemma units_visible (s : Units.units) :
  (exists c, In c s /\ Units.isWhiteSpace c = false)
  \/ (forall c, In c s -> Units.isWhiteSpace c = true).
Proof.
  induction s as [ | a s [(c & Hin & Hc) | Hall]].
  - right. intros c [].
  - left. exists c. split; [now right | assumption].
  - destruct (Units.isWhiteSpace a) eqn:Ha.
    + right. intros c [<- | Hc]; auto.
    + left. exists a. split; [now left | assumption].
Qed.

(** On a code unit below 256 the two tests of white space agree. *)
Lemma units_isWhiteSpace_ascii (c : ascii) :
  Units.isWhiteSpace (N_of_ascii c) = isWhiteSpace c.
Proof. destruct c as [[] [] [] [] [] [] [] []]; reflexivity. Qed.

Lemma units_trimStart_of_string (s : string) :
  Units.trimStart (Units.of_string s) = Units.of_string (trimStart s).
Proof.
  induction s as [ | a s IH]; [reflexivity | ].
  cbn [Units.of_string list_ascii_of_string map Units.trimStart trimStart].
  rewrite units_isWhiteSpace_ascii.
  destruct (isWhiteSpace a); [exact IH | reflexivity].
Qed.

Lemma units_trimEnd_of_string (s : string) :
  Units.trimEnd (Units.of_string s) = Units.of_string (trimEnd s).
Proof.
  induction s as [ | a s IH]; [reflexivity | ].
  cbn [Units.of_string list_ascii_of_string map Units.trimEnd trimEnd].
  fold (Units.of_string s). rewrite IH, units_isWhiteSpace_ascii.
  destruct (trimEnd s) as [ | k kept]; [ | reflexivity].
  cbn [Units.of_string list_ascii_of_string map]. now destruct (isWhiteSpace a).
Qed.

Lemma units_trim_of_string (s : string) :
  Units.trim (Units.of_string s) = Units.of_string (trim s).
Proof.
  unfold Units.trim, trim.
  now rewrite units_trimStart_of_string, units_trimEnd_of_string.
Qed.

Lemma units_length_of_string (s : string) :
  List.length (Units.of_string s) = String.length s.
Proof.
  unfold Units.of_string. rewrite length_map.
  induction s as [ | a s IH]; cbn; [reflexivity | now rewrite IH].
Qed.

Lemma slice_short (n : nat) (s : string) :
  (String.length s <= n)%nat -> substring 0 n s = s.
Proof.
  revert n. induction s as [ | a s IH]; intros [ | n] H; cbn in *;
    try reflexivity; try lia.
  f_equal. apply IH. lia.
Qed.

Lemma slice_length (n : nat) (s : string) :
  String.length (substring 0 n s) = Nat.min n (String.length s).
Proof.
  revert n. induction s as [ | a s IH]; intros [ | n]; cbn; try reflexivity.
  now rewrite IH.
Qed.

Lemma slice_prefix (n : nat) (s : string) :
  exists rest, s = substring 0 n s ++ rest.
Proof.
  revert n. induction s as [ | a s IH]; intros [ | n]; cbn.
  - now exists "".
  - now exists "".
  - now exists (String a s).
  - destruct (IH n) as [rest Hrest]. exists rest. now rewrite <- Hrest.
Qed.

Lemma append_length (a b : string) :
  String.length (a ++ b) = (String.length a + String.length b)%nat.
Proof. induction a as [ | c a IH]; cbn; [reflexivity | now rewrite IH]. Qed.

(* ================================================================= *)
(** ** The endpoint, over all its runs *)

Section RouteRuns.

Variable TypeError_destructure_null : string.
Variable provider : string -> string -> json -> completion string.

Import Route.

Local Abbreviation POST := (Route.POST TypeError_destructure_null provider).

Lemma POST_json_rejected (env : Env) (req : Request) (e : thrown) :
  configured env = true ->
  req_json req = Abrupt e ->
  POST env req =
    (Normal {| status := 500;
               body := JObj [("error", JStr (message_or "Internal server error" e))] |},
     [ConsoleError "API Error:" e]).
Proof.
  intros Hconf Hreq. unfold Route.POST, Route.try_block. now rewrite Hconf, Hreq.
Qed.

Lemma truthy_some (x : value) :
  ToBoolean x = true -> exists p, x = Some p.
Proof. destruct x as [p | ]; [now exists p | discriminate]. Qed.

(** Every run of the handler is of one of seven kinds. *)
Lemma POST_runs (env : Env) (req : Request) :
  (configured env = false
   /\ POST env req =
        (Normal {| status := 500;
                   body := JObj [("error",
                                  JStr "Server configuration error: Missing API key")] |},
         []))
  \/ (exists e,
        configured env = true /\ req_json req = Abrupt e
        /\ POST env req =
             (Normal {| status := 500;
                        body := JObj [("error",
                                       JStr (message_or "Internal server error" e))] |},
              [ConsoleError "API Error:" e]))
  \/ (configured env = true /\ req_json req = Normal JNull
      /\ POST env req =
           (Normal {| status := 500;
                      body := JObj [("error", JStr TypeError_destructure_null)] |},
            [ConsoleError "API Error:" (ErrorInstance TypeError_destructure_null)]))
  \/ (exists v,
        configured env = true /\ req_json req = Normal v /\ v <> JNull
        /\ (ToBoolean (get v "prompt") = false
            \/ includes ["text"; "image"] (get v "type") = false)
        /\ POST env req =
             (Normal {| status := 400;
                        body := JObj [("error",
                                       JStr "Prompt and valid type (text or image) are required")] |},
              []))
  \/ (exists v key p T,
        GEMINI_API_KEY env = Some key /\ key <> "" /\ req_json req = Normal v
        /\ get v "prompt" = Some p /\ ToBoolean (Some p) = true
        /\ get v "type" = Some (JStr "text")
        /\ provider key "gemini-1.5-flash" p = Normal T
        /\ POST env req =
             (Normal {| status := 200;
                        body := JObj [("type", JStr "text"); ("content", JStr T)] |},
              [GenerateContent key "gemini-1.5-flash" p]))
  \/ (exists v key p e,
        GEMINI_API_KEY env = Some key /\ key <> "" /\ req_json req = Normal v
        /\ get v "prompt" = Some p /\ ToBoolean (Some p) = true
        /\ get v "type" = Some (JStr "text")
        /\ provider key "gemini-1.5-flash" p = Abrupt e
        /\ POST env req =
             (Normal {| status := 500;
                        body := JObj [("error",
                                       JStr (message_or "Internal server error" e))] |},
              [GenerateContent key "gemini-1.5-flash" p; ConsoleError "API Error:" e]))
  \/ (exists v p,
        configured env = true /\ req_json req = Normal v
        /\ get v "prompt" = Some p /\ ToBoolean (Some p) = true
        /\ get v "type" = Some (JStr "image")
        /\ POST env req =
             (Normal {| status := 501;
                        body := JObj [("error",
                                       JStr "Image generation not supported in this version")] |},
              [])).
Proof.
  destruct (configured env) eqn:Hconf.
  2:{ left. split; [reflexivity | ].
      unfold Route.POST, Route.try_block. now rewrite Hconf. }
  right. destruct (req_json req) as [v | e] eqn:Hreq.
  2:{ left. exists e. repeat split. now apply POST_json_rejected. }
  right. destruct (proj1 (configured_key env) Hconf) as (key & Hkey & Hne).
  assert (Hnull : v = JNull \/ v <> JNull) by (destruct v; auto; right; discriminate).
  destruct Hnull as [-> | Hnull].
  { left. repeat split. now apply POST_null_body. }
  right.
  pose proof (POST_parsed TypeError_destructure_null provider env req v key
                Hkey Hne Hreq Hnull) as HP.
  destruct (ToBoolean (get v "prompt")) eqn:Hp.
  2:{ left. exists v. repeat split; auto. }
  destruct (includes ["text"; "image"] (get v "type")) eqn:Hin.
  2:{ left. exists v. repeat split; auto.
      rewrite HP. cbn. now rewrite orb_true_r. }
  right. destruct (truthy_some _ Hp) as [p Hprompt].
  rewrite Hprompt in Hp.
  apply includes_text_image in Hin. destruct Hin as [Ht | Ht];
    rewrite ?Ht, ?Hprompt, ?Hp in HP; cbn in HP.
  - destruct (provider key "gemini-1.5-flash" p) as [T | e] eqn:Hprov.
    + left. exists v, key, p, T. repeat split; auto.
    + right. left. exists v, key, p, e. repeat split; auto.
  - right. right. exists v, p. repeat split; auto.
Qed.

End RouteRuns.

Section RouteInvariants.

Variable TypeError_destructure_null : string.
Variable provider : string -> string -> json -> completion string.

Import Route.

Local Abbreviation POST := (Route.POST TypeError_destructure_null provider).

Ltac POST_cases env req :=
  destruct (POST_runs TypeError_destructure_null provider env req)
    as [(Hconf & HP)
       | [(e & Hconf & Hreq & HP)
         | [(Hconf & Hreq & HP)
           | [(v & Hconf & Hreq & Hnull & Hbad & HP)
             | [(v & key & p & T & Hkey & Hne & Hreq & Hprompt & Htruthy & Htype & Hprov & HP)
               | [(v & key & p & e & Hkey & Hne & Hreq & Hprompt & Htruthy & Htype & Hprov & HP)
                 | (v & p & Hconf & Hreq & Hprompt & Htruthy & Htype & HP)]]]]]].

(** X1. Whatever the environment and the request, the handler answers
    with status 200 and a body [{ "type": "text", "content": T }], or
    with status 400, 500 or 501 and a body [{ "error": m }]. *)
Theorem POST_response_shape (env : Env) (req : Request) :
  exists response,
    fst (POST env req) = Normal response
    /\ ((status response = 200%N
         /\ exists T, body response = JObj [("type", JStr "text"); ("content", JStr T)])
        \/ ((status response = 400%N \/ status response = 500%N
             \/ status response = 501%N)
            /\ exists m, body response = JObj [("error", JStr m)])).
Proof.
  POST_cases env req; rewrite HP; eexists; (split; [reflexivity | ]); cbn;
    try (left; split; [reflexivity | eexists; reflexivity]);
    right; (split; [auto | eexists; reflexivity]).
Qed.

(** X2. The provider is called at most once in a run, and a call is made
    exactly when the credential is set and the body carries a truthy prompt
    and the type "text"; the call takes the configured key, the model
    "gemini-1.5-flash" and the prompt as received. *)
Theorem POST_provider_called_iff (env : Env) (req : Request) :
  (List.length (provider_calls (POST env req)) <= 1)%nat
  /\ forall key model p,
       In (GenerateContent key model p) (snd (POST env req)) <->
       (GEMINI_API_KEY env = Some key /\ key <> ""
        /\ model = "gemini-1.5-flash"
        /\ exists v, req_json req = Normal v
                     /\ get v "prompt" = Some p /\ ToBoolean (Some p) = true
                     /\ get v "type" = Some (JStr "text")).
Proof.
  split.
  - POST_cases env req; rewrite HP; cbn; lia.
  - intros key' model p'. split.
    + POST_cases env req; rewrite HP; cbn; intros Hin;
        repeat (destruct Hin as [Hin | Hin]; try discriminate Hin);
        try contradiction;
        injection Hin as <- <- <-; repeat split; eauto 6.
    + intros (Hkey' & Hne' & -> & v' & Hreq' & Hprompt' & Htruthy' & Htype').
      POST_cases env req; rewrite HP; cbn.
      * assert (configured env = true) by (apply configured_key; eauto). congruence.
      * congruence.
      * assert (v' = JNull) by congruence. subst v'. discriminate.
      * assert (v' = v) by congruence. subst v'. destruct Hbad as [Hbad | Hbad].
        -- rewrite Hprompt' in Hbad. congruence.
        -- rewrite Htype' in Hbad. discriminate.
      * assert (v' = v) by congruence. subst v'. left. congruence.
      * assert (v' = v) by congruence. subst v'. left. congruence.
      * assert (v' = v) by congruence. subst v'. congruence.
Qed.

(** X3. A status 200 is never made up: it is given only after a call of the
    provider that returned, and the content is the text it returned. *)
Theorem POST_ok_only_from_provider (env : Env) (req : Request) (response : Response) :
  fst (POST env req) = Normal response ->
  status response = 200%N ->
  exists key v p T,
    GEMINI_API_KEY env = Some key /\ req_json req = Normal v
    /\ get v "prompt" = Some p
    /\ provider key "gemini-1.5-flash" p = Normal T
    /\ body response = JObj [("type", JStr "text"); ("content", JStr T)]
    /\ snd (POST env req) = [GenerateContent key "gemini-1.5-flash" p].
Proof.
  POST_cases env req; rewrite HP; cbn; intros [= <-]; cbn; try discriminate.
  intros _. exists key, v, p, T. repeat split; assumption.
Qed.

(** X4. An error is written to the console exactly in the runs that end in
    the catch clause: those answered with status 500 while the credential
    is set.  The missing credential, the validation error and the
    unsupported type are not logged. *)
Theorem POST_logs_iff_caught (env : Env) (req : Request) :
  (exists e, In (ConsoleError "API Error:" e) (snd (POST env req))) <->
  (configured env = true
   /\ exists response, fst (POST env req) = Normal response
                       /\ status response = 500%N).
Proof.
  split.
  - intros [e' Hin]. revert Hin.
    POST_cases env req; rewrite HP; cbn; intros Hin;
      repeat (destruct Hin as [Hin | Hin]; try discriminate Hin);
      try contradiction;
      (split; [first [assumption | apply configured_key; eauto]
              | eexists; split; reflexivity]).
  - intros (Hc & response & Hfst & Hstatus). revert Hfst.
    POST_cases env req; rewrite HP; cbn; intros [= <-]; cbn in Hstatus;
      try discriminate Hstatus; try congruence.
    + exists e. now left.
    + eexists. left. reflexivity.
    + exists e. right. now left.
Qed.

(** X5. The prompt is not required to be a string: any truthy value (a
    number, an array, an object) passes validation and is handed to the
    provider as it is. *)
Theorem POST_forwards_any_truthy_prompt
    (env : Env) (req : Request) (v p : json) (key T : string) :
  GEMINI_API_KEY env = Some key -> key <> "" ->
  req_json req = Normal v ->
  get v "prompt" = Some p -> ToBoolean (Some p) = true ->
  get v "type" = Some (JStr "text") ->
  provider key "gemini-1.5-flash" p = Normal T ->
  POST env req =
    (Normal {| status := 200;
               body := JObj [("type", JStr "text"); ("content", JStr T)] |},
     [GenerateContent key "gemini-1.5-flash" p]).
Proof.
  intros Hkey Hne Hreq Hprompt Htruthy Htype Hprov.
  rewrite (POST_parsed _ _ env req v key Hkey Hne Hreq (get_some_not_null _ _ _ Hprompt)).
  rewrite Hprompt, Htype, Htruthy. cbn. now rewrite Hprov.
Qed.

(** X6. Of a body the handler reads [prompt] and [type] and nothing else:
    two bodies that agree on both get the same answer and cause the
    same calls. *)
Theorem POST_reads_prompt_and_type_only (env : Env) (v v' : json) :
  v <> JNull -> v' <> JNull ->
  get v "prompt" = get v' "prompt" ->
  get v "type" = get v' "type" ->
  POST env {| req_json := Normal v |} = POST env {| req_json := Normal v' |}.
Proof.
  intros Hv Hv' Hprompt Htype.
  destruct (configured env) eqn:Hconf.
  - destruct (proj1 (configured_key env) Hconf) as (key & Hkey & Hne).
    rewrite (POST_parsed _ _ env {| req_json := Normal v |} v key Hkey Hne eq_refl Hv).
    rewrite (POST_parsed _ _ env {| req_json := Normal v' |} v' key Hkey Hne eq_refl Hv').
    now rewrite Hprompt, Htype.
  - unfold Route.POST, Route.try_block. now rewrite Hconf.
Qed.

End RouteInvariants.

(* ================================================================= *)
(** ** The form, over all its runs *)

Section PageRuns.

Variable TypeError_read_null : string -> string.
Variable TypeError_to_primitive : string.
Variable network : string -> Page.RequestInit -> completion Page.HttpResponse.

Import Page.

Local Abbreviation request := (Page.request TypeError_read_null TypeError_to_primitive network).
Local Abbreviation handleSubmit := (Page.handleSubmit TypeError_read_null TypeError_to_primitive network).

Lemma request_fetch_rejected (p : string) (t : GenerationType) (e : thrown) :
  network "/api/generate" (request_init p t) = Abrupt e ->
  request p t = (Abrupt e, [Fetch "/api/generate" (request_init p t)]).
Proof. intros Hnet. unfold Page.request. now rewrite Hnet. Qed.

(** The [try] block on a response that is not 2xx. *)
Lemma request_not_ok (p : string) (t : GenerationType) (response : HttpResponse) :
  network "/api/generate" (request_init p t) = Normal response ->
  ok response = false ->
  request p t =
    (Abrupt (ErrorInstance
       match response_json response with
       | Normal JNull => TypeError_read_null "error"
       | Normal data =>
           if ToBoolean (get data "error")
           then match interpolate (get data "error") with
                | Some message => message
                | None => TypeError_to_primitive
                end
           else "HTTP error! Status: " ++ decimal (status response)
       | Abrupt _ => "HTTP error! Status: " ++ decimal (status response)
       end),
     [Fetch "/api/generate" (request_init p t)]).
Proof.
  intros Hnet Hok. unfold Page.request. rewrite Hnet. unfold call, bind at 1.
  rewrite Hok. cbn [negb].
  destruct (response_json response) as [data | e]; [ | reflexivity].
  destruct data as [ | b | n | s | items | props]; try reflexivity.
  cbn. destruct (lookup "error" props) as [x | ]; [ | reflexivity].
  destruct (ToBoolean (Some x)); [ | reflexivity].
  cbn [interpolate]. now destruct (ToString x).
Qed.

Lemma request_ok_unparsed (p : string) (t : GenerationType)
    (response : HttpResponse) (e : thrown) :
  network "/api/generate" (request_init p t) = Normal response ->
  ok response = true ->
  response_json response = Abrupt e ->
  request p t = (Abrupt e, [Fetch "/api/generate" (request_init p t)]).
Proof.
  intros Hnet Hok Hjson. unfold Page.request. rewrite Hnet. unfold call, bind at 1.
  now rewrite Hok, Hjson.
Qed.

Lemma request_ok_null (p : string) (t : GenerationType) (response : HttpResponse) :
  network "/api/generate" (request_init p t) = Normal response ->
  ok response = true ->
  response_json response = Normal JNull ->
  request p t = (Abrupt (ErrorInstance (TypeError_read_null "type")),
                 [Fetch "/api/generate" (request_init p t)]).
Proof.
  intros Hnet Hok Hjson. unfold Page.request. rewrite Hnet. unfold call, bind at 1.
  now rewrite Hok, Hjson.
Qed.

Lemma not_null_dec (v : json) : v = JNull \/ v <> JNull.
Proof. destruct v; auto; right; discriminate. Qed.

(** The [try] block calls [fetch] once and nothing else. *)
Lemma request_log (p : string) (t : GenerationType) :
  snd (request p t) = [Fetch "/api/generate" (request_init p t)].
Proof.
  destruct (network "/api/generate" (request_init p t)) as [response | e] eqn:Hnet.
  2:{ now rewrite (request_fetch_rejected p t e Hnet). }
  destruct (ok response) eqn:Hok.
  2:{ now rewrite (request_not_ok p t response Hnet Hok). }
  destruct (response_json response) as [data | e] eqn:Hjson.
  2:{ now rewrite (request_ok_unparsed p t response e Hnet Hok Hjson). }
  destruct (not_null_dec data) as [-> | Hnull].
  - now rewrite (request_ok_null p t response Hnet Hok Hjson).
  - now rewrite (request_ok TypeError_read_null TypeError_to_primitive network p t response data
                   Hnet Hok Hjson Hnull).
Qed.

(** The [try] block goes through only with a checked body. *)
Lemma request_normal (p : string) (t : GenerationType) (data : json) :
  fst (request p t) = Normal data ->
  exists response,
    network "/api/generate" (request_init p t) = Normal response
    /\ ok response = true
    /\ response_json response = Normal data
    /\ ToBoolean (get data "type") = true
    /\ ToBoolean (get data "content") = true.
Proof.
  destruct (network "/api/generate" (request_init p t)) as [response | e] eqn:Hnet.
  2:{ now rewrite (request_fetch_rejected p t e Hnet). }
  destruct (ok response) eqn:Hok.
  2:{ now rewrite (request_not_ok p t response Hnet Hok). }
  destruct (response_json response) as [data' | e] eqn:Hjson.
  2:{ now rewrite (request_ok_unparsed p t response e Hnet Hok Hjson). }
  destruct (not_null_dec data') as [-> | Hnull].
  { now rewrite (request_ok_null p t response Hnet Hok Hjson). }
  rewrite (request_ok TypeError_read_null TypeError_to_primitive network p t response data'
             Hnet Hok Hjson Hnull).
  cbn [fst].
  destruct (ToBoolean (get data' "type")) eqn:Ht;
    destruct (ToBoolean (get data' "content")) eqn:Hc; cbn; try discriminate.
  intros [= <-]. exists response. now rewrite Ht, Hc.
Qed.

Lemma isFormValid_trim (st : State) :
  isFormValid st = true <-> trim (prompt st) <> "".
Proof.
  unfold isFormValid.
  assert (Htype : existsb (GenerationType_eqb (type st)) GENERATION_TYPES = true)
    by now destruct (type st).
  rewrite Htype, andb_true_r.
  destruct (trim (prompt st)); cbn; split; congruence.
Qed.

End PageRuns.

Section PageInvariants.

Variable TypeError_read_null : string -> string.
Variable TypeError_to_primitive : string.
Variable network : string -> Page.RequestInit -> completion Page.HttpResponse.

Import Page.

Local Abbreviation request := (Page.request TypeError_read_null TypeError_to_primitive network).
Local Abbreviation handleSubmit := (Page.handleSubmit TypeError_read_null TypeError_to_primitive network).

(** X7. Over every string, taken as its UTF-16 code units, the form is
    valid exactly when the prompt holds a code unit that is not white
    space for [trim]; the generation type plays no part.  [Page.isFormValid]
    is this test on the strings of the narrower alphabet. *)
Theorem isFormValid_iff_visible_character :
  (forall (prompt : Units.units) (type : GenerationType),
     Units.isFormValid prompt type = true <->
     exists c, In c prompt /\ Units.isWhiteSpace c = false)
  /\ (forall st : State,
        isFormValid st = Units.isFormValid (Units.of_string (prompt st)) (type st)).
Proof.
  split.
  - intros p t. unfold Units.isFormValid.
    assert (Htype : existsb (GenerationType_eqb t) GENERATION_TYPES = true)
      by now destruct t.
    rewrite Htype, andb_true_r. split.
    + intros Hlen. destruct (units_visible p) as [Hex | Hall]; [exact Hex | ].
      apply units_trim_empty in Hall. rewrite Hall in Hlen. discriminate.
    + intros (c & Hin & Hc).
      destruct (Units.trim p) eqn:Htrim; [ | reflexivity].
      rewrite (proj1 (units_trim_empty p) Htrim c Hin) in Hc. discriminate.
  - intros st. unfold isFormValid, Units.isFormValid.
    now rewrite units_trim_of_string, units_length_of_string.
Qed.

(** X8. A submission that passes validation calls [fetch] exactly once,
    before anything else: a POST to "/api/generate" with the prompt as
    typed (not trimmed), the type and a 30 second timeout.  It then shows
    exactly one toast.  There is no second call, whatever the outcome. *)
Theorem handleSubmit_one_fetch (st : State) :
  isFormValid st = true ->
  exists toast,
    snd (handleSubmit st) =
      [Fetch "/api/generate"
         {| method := "POST";
            headers := [("Content-Type", "application/json")];
            body := JObj [("prompt", JStr (prompt st));
                          ("type", JStr (type_string (type st)))];
            timeout := 30000 |};
       toast]
    /\ is_Fetch toast = false.
Proof.
  intros Hvalid. unfold Page.handleSubmit. rewrite Hvalid. cbn [negb].
  pose proof (request_log TypeError_read_null TypeError_to_primitive network (prompt st) (type st)) as Hlog.
  destruct (Page.request TypeError_read_null TypeError_to_primitive network (prompt st) (type st))
    as [[data | err] calls].
  - cbn in Hlog. subst calls. unfold announce, catch_clause.
    destruct (interpolate (get data "type")); eexists; split; reflexivity.
  - cbn in Hlog. subst calls. eexists. split; reflexivity.
Qed.

(** X9. When the response is not 2xx and its body parses to an object
    whose [error] is truthy, the message stored (and shown in the toast) is
    that [error] converted to a string, or the message of the TypeError
    when it cannot be converted (an object with a [toString] of its own);
    a string [error] is stored as it is.  No result is stored. *)
Theorem handleSubmit_error_from_body
    (st : State) (response : HttpResponse) (data x : json) :
  isFormValid st = true ->
  network "/api/generate" (request_init (prompt st) (type st)) = Normal response ->
  ok response = false ->
  response_json response = Normal data ->
  get data "error" = Some x -> ToBoolean (Some x) = true ->
  (forall m, x = JStr m -> ToString x = Some m)
  /\ handleSubmit st =
       ({| prompt := prompt st; type := type st; result := None; loading := false;
           error := Some {| message := match ToString x with
                                       | Some converted => converted
                                       | None => TypeError_to_primitive
                                       end |} |},
        [Fetch "/api/generate" (request_init (prompt st) (type st));
         ToastError "Ritual Failed"
           match ToString x with
           | Some converted => converted
           | None => TypeError_to_primitive
           end]).
Proof.
  intros Hvalid Hnet Hok Hjson Herror Htruthy.
  split; [now intros m -> | ].
  pose proof (request_not_ok TypeError_read_null TypeError_to_primitive network _ _ response Hnet Hok) as Hreq.
  rewrite Hjson in Hreq.
  assert (Hdata : data <> JNull) by (eapply get_some_not_null; eassumption).
  destruct data; try congruence;
    rewrite Herror, Htruthy in Hreq; cbn [interpolate] in Hreq;
    unfold Page.handleSubmit, catch_clause; rewrite Hvalid, Hreq; reflexivity.
Qed.

(** X10. When the response is not 2xx and its body does not parse, or
    parses to something other than [null] without a truthy [error], the
    message stored is "HTTP error! Status: " followed by the status in
    decimal; no result is stored. *)
Theorem handleSubmit_status_fallback (st : State) (response : HttpResponse) :
  isFormValid st = true ->
  network "/api/generate" (request_init (prompt st) (type st)) = Normal response ->
  ok response = false ->
  (exists e, response_json response = Abrupt e)
  \/ (exists data, response_json response = Normal data /\ data <> JNull
                   /\ ToBoolean (get data "error") = false) ->
  result (fst (handleSubmit st)) = None
  /\ error (fst (handleSubmit st))
       = Some {| message := "HTTP error! Status: " ++ decimal (status response) |}.
Proof.
  intros Hvalid Hnet Hok Hbody.
  pose proof (request_not_ok TypeError_read_null TypeError_to_primitive network _ _ response Hnet Hok) as Hreq.
  destruct Hbody as [[e Hjson] | (data & Hjson & Hnull & Hfalsy)]; rewrite Hjson in Hreq.
  - now rewrite (handleSubmit_caught _ _ _ st _ _ Hvalid Hreq).
  - rewrite Hfalsy in Hreq. destruct data; try congruence;
      now rewrite (handleSubmit_caught _ _ _ st _ _ Hvalid Hreq).
Qed.

(** X11. When [fetch] itself rejects (no connection, or the 30 second
    timeout aborting the call), the message stored is the rejection's
    message if it is an [Error] and "The abyss rejected your request."
    otherwise; no result is stored and the loading flag is cleared. *)
Theorem handleSubmit_fetch_rejected (st : State) (e : thrown) :
  isFormValid st = true ->
  network "/api/generate" (request_init (prompt st) (type st)) = Abrupt e ->
  handleSubmit st =
    ({| prompt := prompt st; type := type st; result := None; loading := false;
        error := Some {| message := match e with
                                    | ErrorInstance message => message
                                    | NotAnError => "The abyss rejected your request."
                                    end |} |},
     [Fetch "/api/generate" (request_init (prompt st) (type st));
      ToastError "Ritual Failed"
        match e with
        | ErrorInstance message => message
        | NotAnError => "The abyss rejected your request."
        end]).
Proof.
  intros Hvalid Hnet.
  unfold Page.handleSubmit.
  rewrite Hvalid, (request_fetch_rejected TypeError_read_null TypeError_to_primitive network _ _ e Hnet).
  now destruct e.
Qed.

(** X12. Whatever the network answers, a result stored by a submission is
    the body of a 2xx response, and it is an object whose [type] and
    [content] are both truthy. *)
Theorem handleSubmit_stores_checked_result (st : State) (data : json) :
  isFormValid st = true ->
  result (fst (handleSubmit st)) = Some data ->
  (exists response,
     network "/api/generate" (request_init (prompt st) (type st)) = Normal response
     /\ ok response = true /\ response_json response = Normal data)
  /\ exists props,
       data = JObj props
       /\ ToBoolean (lookup "type" props) = true
       /\ ToBoolean (lookup "content" props) = true.
Proof.
  intros Hvalid Hresult.
  destruct (Page.request TypeError_read_null TypeError_to_primitive network (prompt st) (type st))
    as [[data' | err] calls] eqn:Hreq.
  - rewrite (handleSubmit_stored _ _ _ st data' calls Hvalid Hreq) in Hresult.
    cbn in Hresult. injection Hresult as ->.
    destruct (request_normal TypeError_read_null TypeError_to_primitive network (prompt st) (type st) data)
      as (response & Hnet & Hok & Hjson & Ht & Hc); [now rewrite Hreq | ].
    split; [now exists response | ].
    destruct data; try discriminate Ht. now exists props.
  - rewrite (handleSubmit_caught _ _ _ st err calls Hvalid Hreq) in Hresult.
    discriminate Hresult.
Qed.


End PageInvariants.

(* ================================================================= *)
(** ** What is rendered *)

(** X14. The echo line is absent for an empty prompt; it quotes a prompt of
    at most 50 characters in full, and of a longer one the first 50
    characters followed by "...".  It is never longer than 61 characters. *)
Theorem Home_echo (st : Page.State) :
  (Page.prompt st = "" -> View.echo (View.Home st) = None)
  /\ (Page.prompt st <> "" -> (String.length (Page.prompt st) <= 50)%nat ->
      View.echo (View.Home st)
        = Some ("Echo: " ++ View.quote ++ Page.prompt st ++ View.quote))
  /\ ((50 < String.length (Page.prompt st))%nat ->
      exists shown rest,
        Page.prompt st = shown ++ rest /\ String.length shown = 50%nat
        /\ View.echo (View.Home st)
             = Some ("Echo: " ++ View.quote ++ shown ++ "..." ++ View.quote))
  /\ (forall line, View.echo (View.Home st) = Some line ->
      (String.length line <= 61)%nat).
Proof.
  unfold View.Home. cbn [View.echo].
  destruct (String.eqb_spec (Page.prompt st) "") as [Hempty | Hne]; cbn [negb].
  - rewrite Hempty. cbn. repeat split; try congruence; try discriminate; lia.
  - split; [congruence | ]. split; [ | split].
    + intros _ Hshort. rewrite (slice_short 50 _ Hshort).
      apply Nat.ltb_ge in Hshort. now rewrite Hshort.
    + intros Hlong. destruct (slice_prefix 50 (Page.prompt st)) as [rest Hrest].
      exists (substring 0 50 (Page.prompt st)), rest. split; [exact Hrest | ].
      split; [rewrite slice_length; lia | ].
      apply Nat.ltb_lt in Hlong. now rewrite Hlong.
    + intros line [= <-]. cbn [String.length]. rewrite !append_length, slice_length.
      pose proof (Nat.le_min_l 50 (String.length (Page.prompt st))) as Hmin.
      change (String.length View.quote) with 1%nat.
      destruct (Nat.ltb 50 (String.length (Page.prompt st))); cbn [String.length]; lia.
Qed.

(* ================================================================= *)
(** ** The page as its events go by *)

Section FlightProperties.

Variable TypeError_read_null : string -> string.
Variable TypeError_to_primitive : string.

Import Page.
Import Flight.

Local Abbreviation ui_step := (Flight.ui_step TypeError_read_null TypeError_to_primitive).
Local Abbreviation reachable := (Flight.reachable TypeError_read_null TypeError_to_primitive).
Local Abbreviation settle := (Flight.settle TypeError_to_primitive).

(** [handleSubmit], cut at its awaits. *)
Lemma handleSubmit_begin_settle
    (network : string -> RequestInit -> completion HttpResponse) (st : State) :
  isFormValid st = true ->
  Page.handleSubmit TypeError_read_null TypeError_to_primitive network st =
    (fst (settle (fst (Page.request TypeError_read_null TypeError_to_primitive network
                         (prompt st) (type st)))
                 (begin st)),
     (snd (Page.request TypeError_read_null TypeError_to_primitive network
             (prompt st) (type st))
      ++ snd (settle (fst (Page.request TypeError_read_null TypeError_to_primitive network
                             (prompt st) (type st)))
                     (begin st)))%list).
Proof.
  intros Hvalid. unfold Page.handleSubmit, Flight.settle, begin. rewrite Hvalid. cbn [negb].
  destruct (Page.request TypeError_read_null TypeError_to_primitive network
              (prompt st) (type st))
    as [[data | err] calls]; cbn [fst snd].
  - now destruct (announce TypeError_to_primitive data
                    (setResult None (setError None (setLoading true st)))).
  - reflexivity.
Qed.


Lemma single_in_flight (before after : list (string * GenerationType))
    (p p0 : string) (t t0 : GenerationType) :
  [(p0, t0)] = (before ++ (p, t) :: after)%list ->
  before = [] /\ after = [] /\ p = p0 /\ t = t0.
Proof.
  destruct before as [ | b before]; cbn.
  - now intros [= -> -> <-].
  - destruct before; discriminate.
Qed.

(** What holds of the page between any two events. *)
Lemma reachable_invariant (c : Config) :
  reachable c ->
  ((loading (ui c) = false /\ in_flight c = [])
   \/ (loading (ui c) = true /\ result (ui c) = None /\ error (ui c) = None
       /\ exists p t, in_flight c = [(p, t)]))
  /\ (error (ui c) = None \/ result (ui c) = None
      \/ exists data, result (ui c) = Some data
                      /\ interpolate (get data "type") = None
                      /\ error (ui c) = Some {| message := TypeError_to_primitive |})
  /\ (forall data, result (ui c) = Some data ->
      exists props, data = JObj props
                    /\ ToBoolean (lookup "type" props) = true
                    /\ ToBoolean (lookup "content" props) = true).
Proof.
  induction 1 as [ | c c' Hreach IH Hstep].
  - cbn. split; [now left | ]. split; [now left | discriminate].
  - destruct IH as (Hphase & Hexcl & Hchecked).
    destruct Hstep as [c v Hen | c v Hen | c Hen Hinvalid | c Hen Hvalid
                      | c before after p t network Hflight];
      cbn [ui in_flight View.input_disabled View.select_disabled
           View.button_disabled View.Home] in *.
    + destruct Hphase as [[Hl Hf] | [Hl _]]; [ | congruence].
      unfold handlePromptChange.
      destruct (error (ui c)) eqn:He; cbn; rewrite ?He;
        (split; [left; now split | split; [now left | assumption]]).
    + destruct Hphase as [[Hl Hf] | [Hl _]]; [ | congruence].
      unfold handleTypeChange.
      destruct (error (ui c)) eqn:He; cbn; rewrite ?He;
        (split; [left; now split | split; [now left | assumption]]).
    + apply orb_false_iff in Hen. destruct Hen as [_ Hen].
      apply negb_false_iff in Hen. congruence.
    + apply orb_false_iff in Hen. destruct Hen as [Hl _].
      destruct Hphase as [[_ Hf] | [Hl' _]]; [ | congruence].
      rewrite Hf. cbn. split; [right; eauto 8 | ]. split; [now left | discriminate].
    + destruct Hphase as [[_ Hf] | (Hl & Hres & Herr & p0 & t0 & Hf)].
      { rewrite Hf in Hflight. now destruct before. }
      rewrite Hf in Hflight.
      destruct (single_in_flight _ _ _ _ _ _ Hflight) as (-> & -> & _ & _).
      cbn [app].
      destruct (Page.request TypeError_read_null TypeError_to_primitive network p t)
        as [[data | err] calls] eqn:Hreq;
        unfold Flight.settle, announce, catch_clause; cbn [fst].
      * destruct (request_normal TypeError_read_null TypeError_to_primitive network p t data)
          as (response & _ & _ & _ & Ht & Hc); [now rewrite Hreq | ].
        assert (Hobject : exists props, data = JObj props
                                        /\ ToBoolean (lookup "type" props) = true
                                        /\ ToBoolean (lookup "content" props) = true).
        { destruct data; try discriminate Ht. now exists props. }
        destruct (interpolate (get data "type")) eqn:Hname; cbn; rewrite ?Herr.
        -- split; [now left | ]. split; [now left | ]. now intros data' [= <-].
        -- split; [now left | ]. split; [ | now intros data' [= <-]].
           right. right. now exists data.
      * cbn. rewrite Hres. split; [now left | ]. split; [right; now left | discriminate].
Qed.


(** X15. The page never has two submissions in flight: between any two
    events at most one [fetch] is unsettled, and one is exactly when the
    loading flag is set. *)
Theorem at_most_one_in_flight (c : Config) :
  reachable c ->
  (List.length (in_flight c) <= 1)%nat
  /\ (loading (ui c) = true <-> in_flight c <> []).
Proof.
  intros Hreach.
  destruct (reachable_invariant c Hreach) as ([[Hl Hf] | (Hl & _ & _ & p & t & Hf)] & _).
  - rewrite Hl, Hf. cbn. split; [lia | ]. split; [discriminate | congruence].
  - rewrite Hl, Hf. cbn. split; [lia | ]. split; [discriminate | reflexivity].
Qed.

(** X16. Driven through its controls, [Home] returns the alert region
    together with a result section in one case only: the stored result is
    a response whose type cannot be converted to a string, and the alert
    carries the message of that TypeError.  In every other state at most
    one of the two is returned. *)
Theorem alert_and_creation_exclusive (c : Config) :
  reachable c ->
  View.alert_region (View.Home (ui c)) = None
  \/ View.creation (View.Home (ui c)) = None
  \/ exists data,
       result (ui c) = Some data
       /\ interpolate (get data "type") = None
       /\ View.alert_region (View.Home (ui c)) = Some TypeError_to_primitive.
Proof.
  intros Hreach.
  destruct (reachable_invariant c Hreach)
    as (_ & [He | [Hr | (data & Hr & Hname & He)]] & _); cbn.
  - left. now rewrite He.
  - right. left. now rewrite Hr.
  - right. right. exists data. now rewrite He.
Qed.

(** X17. While a submission is in flight the prompt, the type selector and
    the button are disabled and the button reads "Summoning..."; the only
    thing that can happen next is that the submission settles, as the
    [catch] and [finally] clauses and the end of the [try] block have it,
    which clears the loading flag and leaves nothing in flight. *)
Theorem in_flight_page_is_frozen (c : Config) :
  reachable c ->
  loading (ui c) = true ->
  View.input_disabled (View.Home (ui c)) = true
  /\ View.select_disabled (View.Home (ui c)) = true
  /\ View.button_disabled (View.Home (ui c)) = true
  /\ View.button_label (View.Home (ui c)) = "Summoning..."
  /\ (forall c', ui_step c c' ->
      loading (ui c') = false /\ in_flight c' = []
      /\ prompt (ui c') = prompt (ui c) /\ type (ui c') = type (ui c)
      /\ ((exists data, result (ui c') = Some data
                        /\ interpolate (get data "type") <> None
                        /\ error (ui c') = None)
          \/ (exists err, result (ui c') = None /\ error (ui c') = Some err)
          \/ (exists data, result (ui c') = Some data
                           /\ interpolate (get data "type") = None
                           /\ error (ui c')
                                = Some {| message := TypeError_to_primitive |}))).
Proof.
  intros Hreach Hl.
  destruct (reachable_invariant c Hreach)
    as ([[Hl' _] | (_ & Hres & Herr & p & t & Hf)] & _); [congruence | ].
  cbn [View.input_disabled View.select_disabled View.button_disabled
       View.button_label View.Home].
  rewrite Hl. cbn [orb].
  split; [reflexivity | ]. split; [reflexivity | ].
  split; [reflexivity | ]. split; [reflexivity | ].
  intros c' Hstep.
  destruct Hstep as [c v Hen | c v Hen | c Hen Hinvalid | c Hen Hvalid
                    | c before after p' t' network Hflight];
    cbn [ui in_flight View.input_disabled View.select_disabled
         View.button_disabled View.Home] in *;
    try congruence;
    try (rewrite Hl in Hen; discriminate Hen).
  rewrite Hf in Hflight.
  destruct (single_in_flight _ _ _ _ _ _ Hflight) as (-> & -> & _ & _).
  unfold Flight.settle, announce, catch_clause.
  destruct (fst (Page.request TypeError_read_null TypeError_to_primitive network p' t'))
    as [data | err].
  - destruct (interpolate (get data "type")) eqn:Hname; cbn; rewrite ?Herr;
      (split; [reflexivity | ]); (split; [reflexivity | ]);
      (split; [reflexivity | ]); (split; [reflexivity | ]).
    + left. exists data. repeat split. congruence.
    + right. right. exists data. now repeat split.
  - cbn. rewrite Hres.
    (split; [reflexivity | ]); (split; [reflexivity | ]);
      (split; [reflexivity | ]); (split; [reflexivity | ]).
    right. left. eexists. split; reflexivity.
Qed.

End FlightProperties.

(* ================================================================= *)
(** ** From the form to the provider and back *)

Section EndToEnd.

Variable TypeError_read_null : string -> string.
Variable TypeError_to_primitive : string.
Variable TypeError_destructure_null : string.
Variable provider : string -> string -> json -> completion string.
Variable env : Route.Env.

Local Abbreviation POST := (Route.POST TypeError_destructure_null provider env).
Local Abbreviation served := (Wire.served TypeError_destructure_null provider env).
Local Abbreviation handleSubmit := (Page.handleSubmit TypeError_read_null TypeError_to_primitive served).

(** The request of a valid form, as the endpoint receives it. *)
Local Abbreviation received st :=
  {| Route.req_json := Normal (Page.body (Page.request_init (Page.prompt st) (Page.type st))) |}.

Lemma valid_prompt_truthy (st : Page.State) :
  Page.isFormValid st = true -> ToBoolean (Some (JStr (Page.prompt st))) = true.
Proof.
  intros Hvalid. apply ToBoolean_string. intros Hempty.
  apply isFormValid_trim in Hvalid. apply Hvalid. now rewrite Hempty.
Qed.

Lemma served_answer (st : Page.State) (response : Route.Response) (calls : list Route.event) :
  POST (received st) = (Normal response, calls) ->
  served "/api/generate" (Page.request_init (Page.prompt st) (Page.type st))
  = Normal {| Page.status := Route.status response;
              Page.response_json := Normal (Route.body response) |}.
Proof. intros HP. unfold Wire.served. now rewrite HP. Qed.

(** What the endpoint does with the request of a valid form. *)
Lemma POST_received (st : Page.State) (key : string) :
  Page.isFormValid st = true ->
  Route.GEMINI_API_KEY env = Some key -> key <> "" ->
  POST (received st) =
    match Page.type st with
    | Page.text =>
        match provider key "gemini-1.5-flash" (JStr (Page.prompt st)) with
        | Normal T =>
            (Normal {| Route.status := 200;
                       Route.body := JObj [("type", JStr "text"); ("content", JStr T)] |},
             [Route.GenerateContent key "gemini-1.5-flash" (JStr (Page.prompt st))])
        | Abrupt e =>
            (Normal {| Route.status := 500;
                       Route.body :=
                         JObj [("error", JStr (message_or "Internal server error" e))] |},
             [Route.GenerateContent key "gemini-1.5-flash" (JStr (Page.prompt st));
              Route.ConsoleError "API Error:" e])
        end
    | Page.image =>
        (Normal {| Route.status := 501;
                   Route.body :=
                     JObj [("error",
                            JStr "Image generation not supported in this version")] |},
         [])
    end.
Proof.
  intros Hvalid Hkey Hne.
  rewrite (POST_parsed TypeError_destructure_null provider env (received st)
             (Page.body (Page.request_init (Page.prompt st) (Page.type st))) key
             Hkey Hne eq_refl ltac:(discriminate)).
  cbn [Page.body Page.request_init get lookup String.eqb Ascii.eqb Bool.eqb].
  rewrite (valid_prompt_truthy st Hvalid).
  destruct (Page.type st); reflexivity.
Qed.

(** X19. A request sent by a valid form never fails the endpoint's
    validation: with the credential set it is answered 501 for the type
    "image", and for "text" it reaches the provider with the prompt as
    typed. *)
Theorem form_request_passes_validation (st : Page.State) (key : string) :
  Page.isFormValid st = true ->
  Route.GEMINI_API_KEY env = Some key -> key <> "" ->
  exists response,
    fst (POST (received st)) = Normal response
    /\ Route.status response <> 400%N
    /\ (Page.type st = Page.image ->
        Route.status response = 501%N /\ snd (POST (received st)) = [])
    /\ (Page.type st = Page.text ->
        Route.provider_calls (POST (received st))
        = [Route.GenerateContent key "gemini-1.5-flash" (JStr (Page.prompt st))]).
Proof.
  intros Hvalid Hkey Hne. rewrite (POST_received st key Hvalid Hkey Hne).
  destruct (Page.type st).
  - destruct (provider key "gemini-1.5-flash" (JStr (Page.prompt st)));
      eexists; (split; [reflexivity | ]); cbn; repeat split; discriminate.
  - eexists. split; [reflexivity | ]. cbn. repeat split; discriminate.
Qed.

(** X20. End to end, for the type "text": when the provider returns a
    non-empty text [T] for the prompt, the form stores
    [{ "type": "text", "content": T }], shows it as prose with no alert,
    and announces it with the success toast. *)
Theorem end_to_end_text (st : Page.State) (key T : string) :
  Page.isFormValid st = true -> Page.type st = Page.text ->
  Route.GEMINI_API_KEY env = Some key -> key <> "" ->
  provider key "gemini-1.5-flash" (JStr (Page.prompt st)) = Normal T -> T <> "" ->
  handleSubmit st =
    ({| Page.prompt := Page.prompt st; Page.type := Page.text;
        Page.result := Some (JObj [("type", JStr "text"); ("content", JStr T)]);
        Page.loading := false; Page.error := None |},
     [Page.Fetch "/api/generate" (Page.request_init (Page.prompt st) Page.text);
      Page.ToastSuccess "Creation Summoned" "Your text has emerged from the shadows."])
  /\ View.creation (View.Home (fst (handleSubmit st))) = Some (View.Prose (Some (JStr T)))
  /\ View.alert_region (View.Home (fst (handleSubmit st))) = None.
Proof.
  intros Hvalid Htype Hkey Hne Hprov HT.
  pose proof (POST_received st key Hvalid Hkey Hne) as HP.
  set (req := received st) in HP. rewrite Htype, Hprov in HP. subst req.
  pose proof (served_answer st _ _ HP) as Hnet. cbn [Route.status Route.body] in Hnet.
  apply ToBoolean_string in HT.
  pose proof (request_ok TypeError_read_null TypeError_to_primitive served _ _ _ _ Hnet eq_refl eq_refl
                ltac:(discriminate)) as Hreq.
  cbn [get lookup String.eqb Ascii.eqb Bool.eqb] in Hreq. rewrite HT in Hreq.
  cbn [ToBoolean String.eqb negb andb] in Hreq.
  assert (Hrun : handleSubmit st =
    ({| Page.prompt := Page.prompt st; Page.type := Page.text;
        Page.result := Some (JObj [("type", JStr "text"); ("content", JStr T)]);
        Page.loading := false; Page.error := None |},
     [Page.Fetch "/api/generate" (Page.request_init (Page.prompt st) Page.text);
      Page.ToastSuccess "Creation Summoned" "Your text has emerged from the shadows."])).
  { unfold Page.handleSubmit. rewrite Hvalid, Hreq.
    unfold Page.setLoading, Page.setResult, Page.setError. cbn. now rewrite Htype. }
  rewrite Hrun. repeat split.
Qed.

(** X21. End to end, when the provider returns the empty text: the
    endpoint answers 200 with an empty content, and the form refuses it
    with "Invalid response from the abyss". *)
Theorem end_to_end_empty_text (st : Page.State) (key : string) :
  Page.isFormValid st = true -> Page.type st = Page.text ->
  Route.GEMINI_API_KEY env = Some key -> key <> "" ->
  provider key "gemini-1.5-flash" (JStr (Page.prompt st)) = Normal "" ->
  fst (POST (received st))
    = Normal {| Route.status := 200;
                Route.body := JObj [("type", JStr "text"); ("content", JStr "")] |}
  /\ Page.result (fst (handleSubmit st)) = None
  /\ Page.error (fst (handleSubmit st))
       = Some {| Page.message := "Invalid response from the abyss" |}.
Proof.
  intros Hvalid Htype Hkey Hne Hprov.
  pose proof (POST_received st key Hvalid Hkey Hne) as HP.
  set (req := received st) in HP. rewrite Htype, Hprov in HP. subst req.
  pose proof (served_answer st _ _ HP) as Hnet. cbn [Route.status Route.body] in Hnet.
  pose proof (request_ok TypeError_read_null TypeError_to_primitive served _ _ _ _ Hnet eq_refl eq_refl
                ltac:(discriminate)) as Hreq.
  cbn in Hreq. rewrite HP.
  now rewrite (handleSubmit_caught _ _ _ st _ _ Hvalid Hreq).
Qed.

(** The form on an answer of the endpoint that is not 2xx and carries
    [{ "error": m }]. *)
Lemma handleSubmit_endpoint_error
    (st : Page.State) (status : N) (m : string) (calls : list Route.event) :
  Page.isFormValid st = true ->
  POST (received st)
    = (Normal {| Route.status := status; Route.body := JObj [("error", JStr m)] |}, calls) ->
  Page.ok {| Page.status := status;
             Page.response_json := Normal (JObj [("error", JStr m)]) |} = false ->
  fst (handleSubmit st) =
    {| Page.prompt := Page.prompt st; Page.type := Page.type st;
       Page.result := None; Page.loading := false;
       Page.error :=
         Some {| Page.message :=
                   if String.eqb m "" then "HTTP error! Status: " ++ Page.decimal status
                   else m |} |}.
Proof.
  intros Hvalid HP Hok.
  pose proof (served_answer st _ _ HP) as Hnet. cbn [Route.status Route.body] in Hnet.
  pose proof (request_not_ok TypeError_read_null TypeError_to_primitive served _ _ _ Hnet Hok) as Hreq.
  cbn [Page.response_json Page.status get lookup String.eqb Ascii.eqb Bool.eqb
       ToBoolean interpolate ToString] in Hreq.
  rewrite (handleSubmit_caught _ _ _ st _ _ Hvalid Hreq).
  now destruct (String.eqb m "").
Qed.

(** X22. End to end, for the type "image": whatever the prompt and the
    provider, the form ends with the error "Image generation not supported
    in this version" and no result, and the provider is not called. *)
Theorem end_to_end_image (st : Page.State) :
  Page.isFormValid st = true -> Page.type st = Page.image ->
  Route.configured env = true ->
  Page.result (fst (handleSubmit st)) = None
  /\ Page.error (fst (handleSubmit st))
       = Some {| Page.message := "Image generation not supported in this version" |}
  /\ snd (POST (received st)) = [].
Proof.
  intros Hvalid Htype Hconf.
  destruct (proj1 (configured_key env) Hconf) as (key & Hkey & Hne).
  pose proof (POST_received st key Hvalid Hkey Hne) as HP.
  set (req := received st) in HP. rewrite Htype in HP. subst req.
  rewrite (handleSubmit_endpoint_error st _ _ _ Hvalid HP eq_refl), HP.
  repeat split.
Qed.

(** X23. End to end, without the credential: whatever is submitted, the
    form ends with the error "Server configuration error: Missing API key"
    and no result. *)
Theorem end_to_end_missing_key (st : Page.State) :
  Page.isFormValid st = true ->
  Route.configured env = false ->
  Page.result (fst (handleSubmit st)) = None
  /\ Page.error (fst (handleSubmit st))
       = Some {| Page.message := "Server configuration error: Missing API key" |}.
Proof.
  intros Hvalid Hconf.
  assert (HP : POST (received st) =
                (Normal {| Route.status := 500;
                           Route.body :=
                             JObj [("error",
                                    JStr "Server configuration error: Missing API key")] |},
                 [])).
  { unfold Route.POST, Route.try_block. now rewrite Hconf. }
  rewrite (handleSubmit_endpoint_error st _ _ _ Hvalid HP eq_refl).
  repeat split.
Qed.

(** X24. End to end, when the call of the provider throws: the form shows
    the message of the thrown [Error]; if that message is empty it shows
    "HTTP error! Status: 500", and if the thrown value is no [Error] it
    shows "Internal server error". *)
Theorem end_to_end_provider_throws (st : Page.State) (key : string) (e : thrown) :
  Page.isFormValid st = true -> Page.type st = Page.text ->
  Route.GEMINI_API_KEY env = Some key -> key <> "" ->
  provider key "gemini-1.5-flash" (JStr (Page.prompt st)) = Abrupt e ->
  Page.result (fst (handleSubmit st)) = None
  /\ Page.error (fst (handleSubmit st))
       = Some {| Page.message :=
                   match e with
                   | ErrorInstance "" => "HTTP error! Status: 500"
                   | ErrorInstance message => message
                   | NotAnError => "Internal server error"
                   end |}.
Proof.
  intros Hvalid Htype Hkey Hne Hprov.
  pose proof (POST_received st key Hvalid Hkey Hne) as HP.
  set (req := received st) in HP. rewrite Htype, Hprov in HP. subst req.
  rewrite (handleSubmit_endpoint_error st _ _ _ Hvalid HP eq_refl).
  cbn. split; [reflexivity | ].
  destruct e as [[ | c m] | ]; reflexivity.
Qed.

End EndToEnd.

(* ================================================================= *)
(** ** The properties above on concrete runs *)

Lemma POST_ok_only_from_provider_witness :
  exists key v p T,
    Route.GEMINI_API_KEY Sample.env = Some key
    /\ Route.req_json (Sample.posting (JStr "A haunted castle") (JStr "text")) = Normal v
    /\ get v "prompt" = Some p
    /\ Sample.answering "It was a dark night..." key "gemini-1.5-flash" p = Normal T
    /\ Route.body {| Route.status := 200;
                     Route.body := JObj [("type", JStr "text");
                                         ("content", JStr "It was a dark night...")] |}
       = JObj [("type", JStr "text"); ("content", JStr T)]
    /\ snd (Route.POST Sample.destructure_null (Sample.answering "It was a dark night...")
              Sample.env (Sample.posting (JStr "A haunted castle") (JStr "text")))
       = [Route.GenerateContent key "gemini-1.5-flash" p].
Proof.
  apply (POST_ok_only_from_provider Sample.destructure_null
           (Sample.answering "It was a dark night...") Sample.env
           (Sample.posting (JStr "A haunted castle") (JStr "text"))
           {| Route.status := 200;
              Route.body := JObj [("type", JStr "text");
                                  ("content", JStr "It was a dark night...")] |});
    reflexivity.
Defined.

(** A prompt that is the number 42. *)
Lemma POST_forwards_any_truthy_prompt_witness :
  Route.POST Sample.destructure_null (Sample.answering "forty-two")
    Sample.env (Sample.posting (JNum "42") (JStr "text"))
  = (Normal {| Route.status := 200;
               Route.body := JObj [("type", JStr "text"); ("content", JStr "forty-two")] |},
     [Route.GenerateContent "secret" "gemini-1.5-flash" (JNum "42")]).
Proof.
  apply (POST_forwards_any_truthy_prompt Sample.destructure_null
           (Sample.answering "forty-two") Sample.env
           (Sample.posting (JNum "42") (JStr "text"))
           (JObj [("prompt", JNum "42"); ("type", JStr "text")])
           (JNum "42") "secret" "forty-two");
    first [reflexivity | discriminate].
Defined.

(** A body with a further property, and with its properties in another order. *)
Lemma POST_reads_prompt_and_type_only_witness :
  Route.POST Sample.destructure_null (Sample.answering "unused") Sample.env
    {| Route.req_json :=
         Normal (JObj [("model", JStr "other"); ("type", JStr "image");
                       ("prompt", JStr "A haunted castle")]) |}
  = Route.POST Sample.destructure_null (Sample.answering "unused") Sample.env
      {| Route.req_json :=
           Normal (JObj [("prompt", JStr "A haunted castle"); ("type", JStr "image")]) |}.
Proof.
  apply (POST_reads_prompt_and_type_only Sample.destructure_null
           (Sample.answering "unused") Sample.env
           (JObj [("model", JStr "other"); ("type", JStr "image");
                  ("prompt", JStr "A haunted castle")])
           (JObj [("prompt", JStr "A haunted castle"); ("type", JStr "image")]));
    first [reflexivity | discriminate].
Defined.

Lemma handleSubmit_one_fetch_witness :
  exists toast,
    snd (Page.handleSubmit Sample.read_null Sample.to_primitive
           (Sample.responding (Sample.carrying 200 Sample.hello)) Sample.typed)
    = [Page.Fetch "/api/generate"
         {| Page.method := "POST";
            Page.headers := [("Content-Type", "application/json")];
            Page.body := JObj [("prompt", JStr "hi"); ("type", JStr "text")];
            Page.timeout := 30000 |};
       toast]
    /\ Page.is_Fetch toast = false.
Proof.
  apply (handleSubmit_one_fetch Sample.read_null Sample.to_primitive
           (Sample.responding (Sample.carrying 200 Sample.hello)) Sample.typed).
  reflexivity.
Defined.

(** Status 500 with [{ "error": "boom" }]. *)
Lemma handleSubmit_error_from_body_witness :
  Page.handleSubmit Sample.read_null Sample.to_primitive
    (Sample.responding (Sample.carrying 500 (JObj [("error", JStr "boom")]))) Sample.typed
  = ({| Page.prompt := "hi"; Page.type := Page.text; Page.result := None;
        Page.loading := false; Page.error := Some {| Page.message := "boom" |} |},
     [Page.Fetch "/api/generate" (Page.request_init "hi" Page.text);
      Page.ToastError "Ritual Failed" "boom"]).
Proof.
  apply (handleSubmit_error_from_body Sample.read_null Sample.to_primitive
           (Sample.responding (Sample.carrying 500 (JObj [("error", JStr "boom")])))
           Sample.typed (Sample.carrying 500 (JObj [("error", JStr "boom")]))
           (JObj [("error", JStr "boom")]) (JStr "boom"));
    reflexivity.
Defined.

(** Status 502 with a body that is no JSON. *)
Lemma handleSubmit_status_fallback_witness :
  Page.result (fst (Page.handleSubmit Sample.read_null Sample.to_primitive
                      (Sample.responding (Scene.unparsed 502)) Sample.typed)) = None
  /\ Page.error (fst (Page.handleSubmit Sample.read_null Sample.to_primitive
                        (Sample.responding (Scene.unparsed 502)) Sample.typed))
       = Some {| Page.message := "HTTP error! Status: 502" |}.
Proof.
  apply (handleSubmit_status_fallback Sample.read_null Sample.to_primitive
           (Sample.responding (Scene.unparsed 502)) Sample.typed (Scene.unparsed 502));
    [reflexivity | reflexivity | reflexivity | ].
  left. eexists. reflexivity.
Defined.

(** The timeout aborting the call. *)
Lemma handleSubmit_fetch_rejected_witness :
  Page.handleSubmit Sample.read_null Sample.to_primitive
    (Scene.rejecting (ErrorInstance "The operation timed out.")) Sample.typed
  = ({| Page.prompt := "hi"; Page.type := Page.text; Page.result := None;
        Page.loading := false;
        Page.error := Some {| Page.message := "The operation timed out." |} |},
     [Page.Fetch "/api/generate" (Page.request_init "hi" Page.text);
      Page.ToastError "Ritual Failed" "The operation timed out."]).
Proof.
  apply (handleSubmit_fetch_rejected Sample.read_null Sample.to_primitive
           (Scene.rejecting (ErrorInstance "The operation timed out.")) Sample.typed
           (ErrorInstance "The operation timed out."));
    reflexivity.
Defined.

Lemma handleSubmit_stores_checked_result_witness :
  (exists response,
     Sample.responding (Sample.carrying 200 Sample.hello) "/api/generate"
       (Page.request_init (Page.prompt Sample.typed) (Page.type Sample.typed))
     = Normal response
     /\ Page.ok response = true /\ Page.response_json response = Normal Sample.hello)
  /\ exists props,
       Sample.hello = JObj props
       /\ ToBoolean (lookup "type" props) = true
       /\ ToBoolean (lookup "content" props) = true.
Proof.
  apply (handleSubmit_stores_checked_result Sample.read_null Sample.to_primitive
           (Sample.responding (Sample.carrying 200 Sample.hello)) Sample.typed
           Sample.hello);
    reflexivity.
Defined.


(** The echo of "hi". *)
Lemma Home_echo_witness :
  View.echo (View.Home Sample.typed) = Some ("Echo: " ++ View.quote ++ "hi" ++ View.quote).
Proof.
  apply (proj1 (proj2 (Home_echo Sample.typed))); [discriminate | cbn; lia].
Defined.

Lemma editing_reachable : Flight.reachable Sample.read_null Sample.to_primitive Scene.editing.
Proof.
  apply (Flight.reachable_step Sample.read_null Sample.to_primitive Flight.loaded Scene.editing).
  - apply Flight.reachable_loaded.
  - apply (Flight.edit_prompt Sample.read_null Sample.to_primitive Flight.loaded "hi"). reflexivity.
Qed.

Lemma sending_reachable : Flight.reachable Sample.read_null Sample.to_primitive Scene.sending.
Proof.
  apply (Flight.reachable_step Sample.read_null Sample.to_primitive Scene.editing Scene.sending).
  - apply editing_reachable.
  - apply (Flight.submit_sent Sample.read_null Sample.to_primitive Scene.editing); reflexivity.
Qed.

Lemma at_most_one_in_flight_witness :
  (List.length (Flight.in_flight Scene.sending) <= 1)%nat
  /\ (Page.loading (Flight.ui Scene.sending) = true
      <-> Flight.in_flight Scene.sending <> []).
Proof.
  apply (at_most_one_in_flight Sample.read_null Sample.to_primitive Scene.sending). apply sending_reachable.
Defined.

Lemma refused_reachable :
  Flight.reachable Sample.read_null Sample.to_primitive Scene.refused.
Proof.
  apply (Flight.reachable_step Sample.read_null Sample.to_primitive
           Scene.sending Scene.refused).
  - apply sending_reachable.
  - apply (Flight.settled Sample.read_null Sample.to_primitive Scene.sending
             [] [] "hi" Page.text Scene.refusing).
    reflexivity.
Qed.


Lemma alert_and_creation_exclusive_witness :
  View.alert_region (View.Home (Flight.ui Scene.refused)) = None
  \/ View.creation (View.Home (Flight.ui Scene.refused)) = None
  \/ exists data,
       Page.result (Flight.ui Scene.refused) = Some data
       /\ interpolate (get data "type") = None
       /\ View.alert_region (View.Home (Flight.ui Scene.refused))
          = Some Sample.to_primitive.
Proof.
  apply (alert_and_creation_exclusive Sample.read_null Sample.to_primitive Scene.refused).
  apply refused_reachable.
Defined.

Lemma in_flight_page_is_frozen_witness :
  View.input_disabled (View.Home (Flight.ui Scene.sending)) = true
  /\ View.select_disabled (View.Home (Flight.ui Scene.sending)) = true
  /\ View.button_disabled (View.Home (Flight.ui Scene.sending)) = true
  /\ View.button_label (View.Home (Flight.ui Scene.sending)) = "Summoning..."
  /\ (forall c', Flight.ui_step Sample.read_null Sample.to_primitive Scene.sending c' ->
      Page.loading (Flight.ui c') = false /\ Flight.in_flight c' = []
      /\ Page.prompt (Flight.ui c') = Page.prompt (Flight.ui Scene.sending)
      /\ Page.type (Flight.ui c') = Page.type (Flight.ui Scene.sending)
      /\ ((exists data, Page.result (Flight.ui c') = Some data
                        /\ interpolate (get data "type") <> None
                        /\ Page.error (Flight.ui c') = None)
          \/ (exists err, Page.result (Flight.ui c') = None
                          /\ Page.error (Flight.ui c') = Some err)
          \/ (exists data, Page.result (Flight.ui c') = Some data
                           /\ interpolate (get data "type") = None
                           /\ Page.error (Flight.ui c')
                                = Some {| Page.message := Sample.to_primitive |}))).
Proof.
  apply (in_flight_page_is_frozen Sample.read_null Sample.to_primitive Scene.sending).
  - apply sending_reachable.
  - reflexivity.
Defined.

Lemma form_request_passes_validation_witness :
  exists response,
    fst (Route.POST Sample.destructure_null (Sample.answering "Hello") Sample.env
           {| Route.req_json :=
                Normal (Page.body (Page.request_init (Page.prompt Scene.typed_image)
                                                     (Page.type Scene.typed_image))) |})
    = Normal response
    /\ Route.status response <> 400%N
    /\ (Page.type Scene.typed_image = Page.image ->
        Route.status response = 501%N
        /\ snd (Route.POST Sample.destructure_null (Sample.answering "Hello") Sample.env
                  {| Route.req_json :=
                       Normal (Page.body
                                 (Page.request_init (Page.prompt Scene.typed_image)
                                                    (Page.type Scene.typed_image))) |})
           = [])
    /\ (Page.type Scene.typed_image = Page.text ->
        Route.provider_calls
          (Route.POST Sample.destructure_null (Sample.answering "Hello") Sample.env
             {| Route.req_json :=
                  Normal (Page.body
                            (Page.request_init (Page.prompt Scene.typed_image)
                                               (Page.type Scene.typed_image))) |})
        = [Route.GenerateContent "secret" "gemini-1.5-flash"
             (JStr (Page.prompt Scene.typed_image))]).
Proof.
  apply (form_request_passes_validation Sample.destructure_null (Sample.answering "Hello")
           Sample.env Scene.typed_image "secret");
    first [reflexivity | discriminate].
Defined.

(** "hi" submitted, the provider answering "Hello". *)
Lemma end_to_end_text_witness :
  Page.handleSubmit Sample.read_null Sample.to_primitive
    (Wire.served Sample.destructure_null (Sample.answering "Hello") Sample.env)
    Sample.typed
  = ({| Page.prompt := "hi"; Page.type := Page.text;
        Page.result := Some (JObj [("type", JStr "text"); ("content", JStr "Hello")]);
        Page.loading := false; Page.error := None |},
     [Page.Fetch "/api/generate" (Page.request_init "hi" Page.text);
      Page.ToastSuccess "Creation Summoned" "Your text has emerged from the shadows."]).
Proof.
  apply (end_to_end_text Sample.read_null Sample.to_primitive Sample.destructure_null
           (Sample.answering "Hello") Sample.env Sample.typed "secret" "Hello");
    first [reflexivity | discriminate].
Defined.

Lemma end_to_end_empty_text_witness :
  Page.error (fst (Page.handleSubmit Sample.read_null Sample.to_primitive
                     (Wire.served Sample.destructure_null (Sample.answering "") Sample.env)
                     Sample.typed))
  = Some {| Page.message := "Invalid response from the abyss" |}.
Proof.
  apply (end_to_end_empty_text Sample.read_null Sample.to_primitive Sample.destructure_null
           (Sample.answering "") Sample.env Sample.typed "secret");
    first [reflexivity | discriminate].
Defined.

Lemma end_to_end_image_witness :
  Page.error (fst (Page.handleSubmit Sample.read_null Sample.to_primitive
                     (Wire.served Sample.destructure_null (Sample.answering "Hello")
                        Sample.env)
                     Scene.typed_image))
  = Some {| Page.message := "Image generation not supported in this version" |}.
Proof.
  apply (end_to_end_image Sample.read_null Sample.to_primitive Sample.destructure_null
           (Sample.answering "Hello") Sample.env Scene.typed_image);
    reflexivity.
Defined.

Lemma end_to_end_missing_key_witness :
  Page.error (fst (Page.handleSubmit Sample.read_null Sample.to_primitive
                     (Wire.served Sample.destructure_null (Sample.answering "Hello")
                        {| Route.GEMINI_API_KEY := None |})
                     Sample.typed))
  = Some {| Page.message := "Server configuration error: Missing API key" |}.
Proof.
  apply (end_to_end_missing_key Sample.read_null Sample.to_primitive Sample.destructure_null
           (Sample.answering "Hello") {| Route.GEMINI_API_KEY := None |} Sample.typed);
    reflexivity.
Defined.

(** The provider throws an [Error] with an empty message. *)
Lemma end_to_end_provider_throws_witness :
  Page.error (fst (Page.handleSubmit Sample.read_null Sample.to_primitive
                     (Wire.served Sample.destructure_null
                        (Sample.failing (ErrorInstance "")) Sample.env)
                     Sample.typed))
  = Some {| Page.message := "HTTP error! Status: 500" |}.
Proof.
  apply (end_to_end_provider_throws Sample.read_null Sample.to_primitive Sample.destructure_null
           (Sample.failing (ErrorInstance "")) Sample.env Sample.typed "secret"
           (ErrorInstance ""));
    first [reflexivity | discriminate].
Defined.

(* ================================================================= *)
(** ** What the page never shows when this endpoint answers *)

Section EndToEndViews.

Variable TypeError_read_null : string -> string.
Variable TypeError_to_primitive : string.
Variable TypeError_destructure_null : string.
Variable provider : string -> string -> json -> completion string.
Variable env : Route.Env.

Local Abbreviation POST := (Route.POST TypeError_destructure_null provider env).
Local Abbreviation served := (Wire.served TypeError_destructure_null provider env).
Local Abbreviation handleSubmit := (Page.handleSubmit TypeError_read_null TypeError_to_primitive served).

(** X25. Answered by this endpoint, a submission never ends with an image
    on the page: the result section is absent or shows prose, whatever
    the environment, the provider and the type selected. *)
Theorem end_to_end_never_an_image (st : Page.State) :
  Page.isFormValid st = true ->
  View.creation (View.Home (fst (handleSubmit st))) = None
  \/ exists T, View.creation (View.Home (fst (handleSubmit st)))
               = Some (View.Prose (Some (JStr T))).
Proof.
  intros Hvalid.
  set (req := {| Route.req_json :=
                   Normal (Page.body (Page.request_init (Page.prompt st) (Page.type st))) |}).
  destruct (POST_runs TypeError_destructure_null provider env req)
    as [(_ & HP)
       | [(e & _ & _ & HP)
         | [(_ & _ & HP)
           | [(v & _ & _ & _ & _ & HP)
             | [(v & key & p & T & _ & _ & _ & _ & _ & _ & _ & HP)
               | [(v & key & p & e & _ & _ & _ & _ & _ & _ & _ & HP)
                 | (v & p & _ & _ & _ & _ & _ & HP)]]]]]];
    subst req;
    try (left;
         now rewrite (handleSubmit_endpoint_error TypeError_read_null
                        TypeError_to_primitive TypeError_destructure_null provider env
                        st _ _ _ Hvalid HP eq_refl)).
  pose proof (served_answer TypeError_destructure_null provider env st _ _ HP) as Hnet.
  cbn [Route.status Route.body] in Hnet.
  pose proof (request_ok TypeError_read_null TypeError_to_primitive served _ _ _ _ Hnet eq_refl eq_refl
                ltac:(discriminate)) as Hreq.
  cbn [get lookup String.eqb Ascii.eqb Bool.eqb] in Hreq.
  destruct (ToBoolean (Some (JStr "text")) && ToBoolean (Some (JStr T))).
  - right. exists T. now rewrite (handleSubmit_stored _ _ _ st _ _ Hvalid Hreq).
  - left. now rewrite (handleSubmit_caught _ _ _ st _ _ Hvalid Hreq).
Qed.

End EndToEndViews.

Lemma end_to_end_never_an_image_witness :
  View.creation
    (View.Home (fst (Page.handleSubmit Sample.read_null Sample.to_primitive
                       (Wire.served Sample.destructure_null (Sample.answering "Hello")
                          Sample.env)
                       Scene.typed_image))) = None
  \/ exists T,
       View.creation
         (View.Home (fst (Page.handleSubmit Sample.read_null Sample.to_primitive
                            (Wire.served Sample.destructure_null (Sample.answering "Hello")
                               Sample.env)
                            Scene.typed_image)))
       = Some (View.Prose (Some (JStr T))).
Proof.
  apply (end_to_end_never_an_image Sample.read_null Sample.to_primitive Sample.destructure_null
           (Sample.answering "Hello") Sample.env Scene.typed_image).
  reflexivity.
Defined.
